(** * batteryIcon: gauge colour, arc geometry, label placement and the
    show/hide decision of the panel indicator.

    The development embeds the numeric and decision logic of
    [extension.js] (classes [CircleIndicator] and [BatteryIconExtension]).

    Numbers.  A battery percentage is produced by [Math.round] and a
    threshold by [Gio.Settings.get_int]: both are integers and are
    modelled in [Z].  Colour channels, angles and coordinates are JavaScript
    numbers obtained by multiplication and division; they are modelled as
    exact rationals ([Q], compared with [==]), so the arithmetic of the
    source is read without binary64 rounding.  For the colour and for the
    end angle of the arc, the same expressions are also evaluated on
    binary64 numbers, and the distance between the two is bounded.

    Effects.  A repaint is a computation that appends drawing commands and
    console lines and may throw; an update of the extension is a function
    on the state of the shell and of the extension object that returns the
    calls it made. *)

From Stdlib Require Import ZArith QArith Qround Qabs Lia Lqa Bool List String
  DecimalString Floats Uint63.
Import ListNotations.

Local Open Scope Z_scope.

(** ** Constants of [extension.js] *)

Definition CHARGING_KEY : string := "charging-threshold".
Definition DISCHARGING_KEY : string := "discharging-threshold".

Definition RING_OUTER_PADDING : Q := 2.
Definition RING_INNER_RATIO : Q := 9 # 10.
Definition DEGREES_PER_PERCENT : Q := 36 # 10.
Definition FONT_SIZE_RATIO : Q := 33 # 100.
Definition CHARGING_ICON_SCALE : Q := 17 # 10.
Definition CHARGING_ICON_SPACING : Q := 105 # 100.

Definition LOW_BATTERY_THRESHOLD : Z := 50.
Definition MIN_BATTERY_PERCENT : Z := 0.
Definition MAX_BATTERY_PERCENT : Z := 100.

(** [Math.PI] is the binary64 number 884279719003555 / 2^48. *)
Definition Math_PI : Q := 884279719003555 # 281474976710656.

(** [-Math.PI / 2] *)
Definition ARC_START_ANGLE : Q := (- Math_PI / 2)%Q.

(** ** Data *)

(** The object [{percentage, isCharging}] handed to the indicator. *)
Record BatteryStatus : Set := mkStatus {
  percentage : Z;
  isCharging : bool
}.

(** An RGB array [[r, g, b]]. *)
Definition Color : Set := (Q * Q * Q)%type.

Definition red (c : Color) : Q := fst (fst c).
Definition green (c : Color) : Q := snd (fst c).
Definition blue (c : Color) : Q := snd c.

(** Channel-wise equality of two colours as numbers. *)
Definition Color_eq (c d : Color) : Prop :=
  (red c == red d /\ green c == green d /\ blue c == blue d)%Q.

(** ** [CircleIndicator._calculateColor] *)

Definition _calculateColor (status : BatteryStatus) : Color :=
  let percentage := percentage status in
  if (percentage <? MIN_BATTERY_PERCENT) || (percentage >? MAX_BATTERY_PERCENT)
  then (0, 0, 0)%Q
  else
    let blue := 0%Q in
    if percentage <=? LOW_BATTERY_THRESHOLD then
      let red := 1%Q in
      let green := (inject_Z percentage / inject_Z LOW_BATTERY_THRESHOLD)%Q in
      (red, green, blue)
    else
      let green := 1%Q in
      let red :=
        (1 - inject_Z (percentage - LOW_BATTERY_THRESHOLD)
             / inject_Z LOW_BATTERY_THRESHOLD)%Q in
      (red, green, blue).

(** The colour of a percentage, whatever the charging flag. *)
Definition color (p : Z) : Color := _calculateColor (mkStatus p false).

(** ** JavaScript helpers *)

(** [Math.round]: the nearest integer, halves going up. *)
Definition Math_round (x : Q) : Z := Qfloor (x + (1 # 2)).

(** [String(n)] for an integer-valued number. *)
Definition String_of (n : Z) : string :=
  NilZero.string_of_int (Z.to_int n).

(** [a ?? b] *)
Definition nullish {A : Type} (a : option A) (b : A) : A :=
  match a with Some v => v | None => b end.

(** ** Effects of a repaint

    A repaint writes drawing commands into the Cairo context of the
    drawing area and may write to the console; a statement may throw. *)

Record TextExtents : Set := mkExtents {
  te_width : Q;
  te_height : Q
}.

(** The tinted image surface built by [_loadChargingSvg]. *)
Record Surface : Set := mkSurface {
  getWidth : Z;
  getHeight : Z;
  tint : Color
}.

Inductive CairoOp : Set :=
| setSourceRGBA (r g b a : Q)
| setOperatorCLEAR
| setOperatorOVER
| paint
| setSourceRGB (r g b : Q)
| arc (xc yc radius angle1 angle2 : Q)
| arcNegative (xc yc radius angle1 angle2 : Q)
| closePath
| fill
| selectFontFace (family : string)
| setFontSize (size : Z)
| save
| scale (sx sy : Q)
| setSourceSurface (s : Surface) (x y : Q)
| restore
| moveTo (x y : Q)
| showText (text : string)
| stroke.

(** What has been written so far: the commands sent to the context, oldest
    first, and the lines written with [console.error]. *)
Record Effects : Set := mkEffects {
  drawn : list CairoOp;
  logged : list string
}.

Definition no_effects : Effects := mkEffects [] [].

Inductive Outcome (A : Type) : Type :=
| Returned (a : A)
| Thrown (error : string).
Arguments Returned {A} a.
Arguments Thrown {A} error.

(** A statement: it runs on the effects so far and returns or throws. *)
Definition Run (A : Type) : Type := Effects -> Outcome A * Effects.

Definition ret {A : Type} (a : A) : Run A := fun e => (Returned a, e).

Definition bind {A B : Type} (m : Run A) (k : A -> Run B) : Run B :=
  fun e =>
    match m e with
    | (Returned a, e') => k a e'
    | (Thrown err, e') => (Thrown err, e')
    end.

Definition throw {A : Type} (err : string) : Run A :=
  fun e => (Thrown err, e).

(** [try { body } catch (error) { handler }] *)
Definition try_catch {A : Type} (body : Run A) (handler : string -> Run A)
  : Run A :=
  fun e =>
    match body e with
    | (Returned a, e') => (Returned a, e')
    | (Thrown err, e') => handler err e'
    end.

Definition draw (op : CairoOp) : Run unit :=
  fun e => (Returned tt, mkEffects (drawn e ++ [op]) (logged e)).

Definition console_error (line : string) : Run unit :=
  fun e => (Returned tt, mkEffects (drawn e) (logged e ++ [line])).

Declare Scope run_scope.
Delimit Scope run_scope with run.
Notation "x <- m ;; k" := (bind m (fun x => k))
  (at level 61, m at next level, right associativity) : run_scope.
Notation "m ;; k" := (bind m (fun _ => k))
  (at level 61, right associativity) : run_scope.

(** ** [CircleIndicator] *)

(** The fields of the widget that the methods below read or write.
    [queued_repaints] counts the calls of [queue_repaint]. *)
Record CircleIndicator : Set := mkIndicator {
  _status : BatteryStatus;
  _extensionPath : string;
  _color : Color;
  visible : bool;
  get_parent : option nat;
  queued_repaints : nat
}.

(** [_init(status, extensionPath)] *)
Definition _init (status : BatteryStatus) (extensionPath : string)
  : CircleIndicator :=
  {| _status := status;
     _extensionPath := extensionPath;
     _color := _calculateColor status;
     visible := true;
     get_parent := None;
     queued_repaints := 0 |}.

(** [update(status)] *)
Definition update (this : CircleIndicator) (status : BatteryStatus)
  : CircleIndicator :=
  {| _status := status;
     _extensionPath := _extensionPath this;
     _color := _calculateColor status;
     visible := visible this;
     get_parent := get_parent this;
     queued_repaints := S (queued_repaints this) |}.

(** [show()] and [hide()] of the actor. *)
Definition show (this : CircleIndicator) : CircleIndicator :=
  {| _status := _status this;
     _extensionPath := _extensionPath this;
     _color := _color this;
     visible := true;
     get_parent := get_parent this;
     queued_repaints := queued_repaints this |}.

Definition hide (this : CircleIndicator) : CircleIndicator :=
  {| _status := _status this;
     _extensionPath := _extensionPath this;
     _color := _color this;
     visible := false;
     get_parent := get_parent this;
     queued_repaints := queued_repaints this |}.

(** What [Rsvg.Handle.new_from_file] meets at a path. *)
Inductive SvgResource : Set :=
| SvgUnreadable                    (* no file, or not an SVG: the call throws *)
| SvgNoHandle                      (* the call returns no handle *)
| SvgImage (width height : Z).     (* a handle with these dimensions *)

(** The glyph cannot be loaded from this resource. *)
Definition load_fails (r : SvgResource) : Prop :=
  match r with SvgImage _ _ => False | _ => True end.

(** The local [arcEndAngle] of [_onRepaint], in radians. *)
Definition arcEndAngle (status : BatteryStatus) : Q :=
  ((270 - inject_Z (MAX_BATTERY_PERCENT - percentage status)
          * DEGREES_PER_PERCENT) * Math_PI / 180)%Q.

(** The angle swept by the filled arc, from [ARC_START_ANGLE] to
    [arcEndAngle]. *)
Definition sweep (status : BatteryStatus) : Q :=
  (arcEndAngle status - ARC_START_ANGLE)%Q.

(** [d] degrees in radians, with the source's [Math.PI / 180]. *)
Definition degrees (d : Q) : Q := (d * Math_PI / 180)%Q.

Section Rendering.

(** The files of the extension directory as librsvg sees them, and the text
    measurement of Cairo for a font size and a text. *)
Variable svg_file : string -> SvgResource.
Variable textExtents : Z -> string -> TextExtents.

Local Open Scope run_scope.
Local Open Scope string_scope.

(** [Rsvg.Handle.new_from_file(svgPath)] followed by [get_dimensions()]: the
    dimensions of the image, no handle, or an exception. *)
Definition new_from_file (svgPath : string) : Run (option (Z * Z)) :=
  match svg_file svgPath with
  | SvgUnreadable => throw ("GLib.Error: cannot load " ++ svgPath)
  | SvgNoHandle => ret None
  | SvgImage w h => ret (Some (w, h))
  end.

(** [_loadChargingSvg(red, green, blue)]: the tinted surface, or [None]
    for the source's [null]. *)
Definition _loadChargingSvg (this : CircleIndicator) (red green blue : Q)
  : Run (option Surface) :=
  try_catch
    (let svgPath := _extensionPath this ++ "/charging.svg" in
     handle <- new_from_file svgPath ;;
     match handle with
     | None => throw ("Failed to load SVG from " ++ svgPath)
     | Some (svgWidth, svgHeight) =>
         ret (Some (mkSurface svgWidth svgHeight (red, green, blue)))
     end)
    (fun error =>
       console_error ("[BatteryIcon] Failed to load charging icon " ++ error) ;;
       ret None).

(** [_drawChargingIcon(context, centerX, centerY, textExtents, red, green,
    blue)]: returns the x position for the text.  The scale is meant for an
    image and a text of positive height (a division by 0 gives 0 in [Q] and
    no finite number in the source; a scale of 0 is no valid scale for
    Cairo): see [finite_scale]. *)
Definition _drawChargingIcon (this : CircleIndicator)
    (centerX centerY : Q) (textExtents : TextExtents) (red green blue : Q)
  : Run Q :=
  svgSurface <- _loadChargingSvg this red green blue ;;
  match svgSurface with
  | None => ret (centerX - te_width textExtents / 2)%Q
  | Some svgSurface =>
      let svgHeight := inject_Z (getHeight svgSurface) in
      let svgWidth := inject_Z (getWidth svgSurface) in
      let scale_ := (te_height textExtents * CHARGING_ICON_SCALE / svgHeight)%Q in
      let scaledWidth := (svgWidth * scale_)%Q in
      let scaledHeight := (svgHeight * scale_)%Q in
      let iconX :=
        (centerX - CHARGING_ICON_SPACING * (te_width textExtents + scaledWidth) / 2)%Q in
      let iconY := (centerY - scaledHeight / 2)%Q in
      let textX := (iconX + scaledWidth - 5)%Q in
      draw save ;;
      draw (scale scale_ scale_) ;;
      draw (setSourceSurface svgSurface (iconX / scale_) (iconY / scale_))%Q ;;
      draw paint ;;
      draw restore ;;
      ret textX
  end.

(** [_onRepaint(area)], for a drawing area whose surface has the given
    size. *)
Definition _onRepaint (this : CircleIndicator) (width height : Z)
  : Run unit :=
  draw (setSourceRGBA 0 0 0 0) ;;
  draw setOperatorCLEAR ;;
  draw paint ;;
  draw setOperatorOVER ;;
  let '(red, green, blue) := _color this in
  draw (setSourceRGB red green blue) ;;
  let centerX := (inject_Z width / 2)%Q in
  let centerY := (inject_Z height / 2)%Q in
  let outerRadius := (inject_Z (Z.min width height) / 2 - RING_OUTER_PADDING)%Q in
  let innerRadius := (outerRadius * RING_INNER_RATIO)%Q in
  let arcEndAngle := arcEndAngle (_status this) in
  draw (arc centerX centerY outerRadius ARC_START_ANGLE arcEndAngle) ;;
  draw (arcNegative centerX centerY innerRadius arcEndAngle ARC_START_ANGLE) ;;
  draw closePath ;;
  draw fill ;;
  draw (selectFontFace "Sans") ;;
  let fontSize := Math_round (inject_Z height * FONT_SIZE_RATIO) in
  draw (setFontSize fontSize) ;;
  let text := String_of (percentage (_status this)) in
  let textExtents := textExtents fontSize text in
  let textX := (centerX - te_width textExtents / 2)%Q in
  let textY := (centerY + te_height textExtents / 2)%Q in
  textX <- (if isCharging (_status this)
            then _drawChargingIcon this centerX centerY textExtents
                   red green blue
            else ret textX) ;;
  draw (setSourceRGB red green blue) ;;
  draw (moveTo textX textY) ;;
  draw (showText text) ;;
  draw stroke.

End Rendering.

(** The x coordinate at which the label is shown: the [moveTo] that
    immediately precedes [showText]. *)
Fixpoint label_x (ops : list CairoOp) : option Q :=
  match ops with
  | moveTo x _ :: ((showText _ :: _) as rest) => Some x
  | _ :: rest => label_x rest
  | [] => None
  end.

(** ** [BatteryIconExtension] *)

(** [UPowerGlib.DeviceState] *)
Inductive DeviceState : Set :=
| UNKNOWN | CHARGING | DISCHARGING | EMPTY | FULLY_CHARGED
| PENDING_CHARGE | PENDING_DISCHARGE.

Definition DeviceState_eqb (a b : DeviceState) : bool :=
  match a, b with
  | UNKNOWN, UNKNOWN | CHARGING, CHARGING | DISCHARGING, DISCHARGING
  | EMPTY, EMPTY | FULLY_CHARGED, FULLY_CHARGED
  | PENDING_CHARGE, PENDING_CHARGE
  | PENDING_DISCHARGE, PENDING_DISCHARGE => true
  | _, _ => false
  end.

(** The UPower display device: its [percentage] property ([None] when the
    property is null or undefined) and its [state]. *)
Record Device : Set := mkDevice {
  dev_percentage : option Q;
  dev_state : DeviceState
}.

(** The settings store: [get_int] of a key. *)
Definition Settings : Set := string -> Z.

Definition get_int (settings : Settings) (key : string) : Z := settings key.

(** The settings that store [c] and [d] for the two thresholds. *)
Definition thresholds (c d : Z) : Settings :=
  fun key =>
    if String.eqb key CHARGING_KEY then c
    else if String.eqb key DISCHARGING_KEY then d
    else 0.

(** The stock battery icon of the panel, an actor of the shell. *)
Record StockIcon : Set := mkStock {
  stock_parent : option nat;
  stock_visible : bool
}.

(** [Main.panel.statusArea.quickSettings?._system?._indicator] *)
Definition Shell : Set := option StockIcon.

(** The fields of the extension object between [enable] and [disable].
    [_stockIcon] tells whether the extension holds the shell's stock icon. *)
Record Extension : Set := mkExtension {
  _settings : Settings;
  _device : Device;
  _indicator : option CircleIndicator;
  _stockIcon : bool;
  _iconParent : option nat;
  _stockWasVisible : bool
}.

(** What one call does to the host, oldest first. *)
Inductive Call : Set :=
| stock_hide
| insert_child_above (parent : nat)
| indicator_hide
| indicator_update (status : BatteryStatus)
| indicator_show
| settings_get_int (key : string) (value : Z).

(** [_getValidatedThreshold(key)]: the validated value, and the read of the
    settings it makes. *)
Definition _getValidatedThreshold (this : Extension) (key : string)
  : Z * list Call :=
  let value := get_int (_settings this) key in
  (Z.max MIN_BATTERY_PERCENT (Z.min MAX_BATTERY_PERCENT value),
   [settings_get_int key value]).

(** The local [percentage] and [isCharging] of [_updateIndicator]. *)
Definition reading (device : Device) : BatteryStatus :=
  {| percentage := Math_round (nullish (dev_percentage device) (-1)%Q);
     isCharging := DeviceState_eqb (dev_state device) CHARGING |}.

(** [this._indicator?.m()] *)
Definition on_indicator (ind : option CircleIndicator)
    (m : CircleIndicator -> CircleIndicator) (call : Call)
  : option CircleIndicator * list Call :=
  match ind with
  | Some i => (Some (m i), [call])
  | None => (None, [])
  end.

(** The first part of [_updateIndicator]: look for the stock icon when it
    is not held yet, move the indicator next to it, and keep it hidden. *)
Definition find_stock_icon (shell : Shell) (this : Extension)
  : Shell * Extension * list Call :=
  let '(this, calls) :=
    if negb (_stockIcon this) then
      let stockIcon := shell in
      let iconParent :=
        match stockIcon with Some s => stock_parent s | None => None end in
      match iconParent, stockIcon, _indicator this with
      | Some parent, Some stock, Some ind =>
          let moved := negb (match get_parent ind with
                             | Some q => Nat.eqb q parent
                             | None => false
                             end) in
          let ind' :=
            if moved
            then {| _status := _status ind;
                    _extensionPath := _extensionPath ind;
                    _color := _color ind;
                    visible := visible ind;
                    get_parent := Some parent;
                    queued_repaints := queued_repaints ind |}
            else ind in
          (mkExtension (_settings this) (_device this) (Some ind')
             true (Some parent) (stock_visible stock),
           if moved then [insert_child_above parent] else [])
      | _, _, _ =>
          (mkExtension (_settings this) (_device this) (_indicator this)
             (match stockIcon with Some _ => true | None => false end)
             iconParent (_stockWasVisible this),
           [])
      end
    else (this, [])
  in
  if _stockIcon this then
    (match shell with
     | Some s => Some (mkStock (stock_parent s) false)
     | None => None
     end,
     this, calls ++ [stock_hide])
  else (shell, this, calls).

Definition set_indicator (this : Extension) (ind : option CircleIndicator)
  : Extension :=
  mkExtension (_settings this) (_device this) ind
    (_stockIcon this) (_iconParent this) (_stockWasVisible this).

(** [_updateIndicator()] *)
Definition _updateIndicator (shell : Shell) (this : Extension)
  : Shell * Extension * list Call :=
  let percentage := percentage (reading (_device this)) in
  let isCharging := isCharging (reading (_device this)) in
  let '(shell, this, calls) := find_stock_icon shell this in
  if percentage <? MIN_BATTERY_PERCENT then
    let '(ind, c) := on_indicator (_indicator this) hide indicator_hide in
    (shell, set_indicator this ind, calls ++ c)
  else
    let status := mkStatus percentage isCharging in
    let '(ind, c1) :=
      on_indicator (_indicator this) (fun i => update i status)
        (indicator_update status) in
    let this := set_indicator this ind in
    let '(chargingThreshold, c2) :=
      _getValidatedThreshold this CHARGING_KEY in
    let '(dischargingThreshold, c3) :=
      _getValidatedThreshold this DISCHARGING_KEY in
    let shouldShow :=
      if isCharging
      then (percentage <? chargingThreshold)
           || (percentage <? dischargingThreshold)
      else percentage <? dischargingThreshold in
    let '(ind, c4) :=
      if shouldShow
      then on_indicator (_indicator this) show indicator_show
      else on_indicator (_indicator this) hide indicator_hide in
    (shell, set_indicator this ind, calls ++ c1 ++ c2 ++ c3 ++ c4).

(** The indicator exists and is visible. *)
Definition shown (this : Extension) : bool :=
  match _indicator this with
  | Some i => visible i
  | None => false
  end.

Definition after_update (shell : Shell) (this : Extension) : Extension :=
  snd (fst (_updateIndicator shell this)).

Definition calls_of_update (shell : Shell) (this : Extension) : list Call :=
  snd (_updateIndicator shell this).

Definition is_get_int (c : Call) : bool :=
  match c with settings_get_int _ _ => true | _ => false end.

(** The local [shouldShow] of [_updateIndicator], for validated
    thresholds. *)
Definition shouldShow (status : BatteryStatus)
    (chargingThreshold dischargingThreshold : Z) : bool :=
  if isCharging status
  then (percentage status <? chargingThreshold)
       || (percentage status <? dischargingThreshold)
  else percentage status <? dischargingThreshold.

(** The extension as [enable] leaves it, with an indicator created for the
    status [{percentage: -1, isCharging: false}], a device that reports
    [x] per cent in state [st], and the settings that store [c] and [d]. *)
Definition enabled (x : Q) (st : DeviceState) (c d : Z) : Extension :=
  mkExtension (thresholds c d) (mkDevice (Some x) st)
    (Some (_init (mkStatus (-1) false) "/ext")) false None false.

(** The same widget with another charging flag in its status. *)
Definition with_charging (this : CircleIndicator) (flag : bool)
  : CircleIndicator :=
  {| _status := mkStatus (percentage (_status this)) flag;
     _extensionPath := _extensionPath this;
     _color := _color this;
     visible := visible this;
     get_parent := get_parent this;
     queued_repaints := queued_repaints this |}.

(** The x position of the label when no glyph is drawn: the text is centred
    on the surface. *)
Definition centred_label_x (textExtents : Z -> string -> TextExtents)
    (this : CircleIndicator) (width height : Z) : Q :=
  (inject_Z width / 2
   - te_width (textExtents (Math_round (inject_Z height * FONT_SIZE_RATIO))
                 (String_of (percentage (_status this)))) / 2)%Q.

(** ** The colour in binary64

    JavaScript evaluates the divisions of [_calculateColor] in binary64.
    The definitions below evaluate the same expressions on binary64 numbers,
    to bound the distance between what the source computes and the exact
    channels of [_calculateColor]. *)

(** The binary64 number of an integer (exact below 2^53). *)
Definition number (n : Z) : float :=
  if n <? 0
  then PrimFloat.opp (PrimFloat.of_uint63 (Uint63.of_Z (- n)))
  else PrimFloat.of_uint63 (Uint63.of_Z n).

(** [_calculateColor] with the arithmetic of the source in binary64. *)
Definition _calculateColor_binary64 (status : BatteryStatus)
  : float * float * float :=
  let percentage := percentage status in
  if (percentage <? MIN_BATTERY_PERCENT) || (percentage >? MAX_BATTERY_PERCENT)
  then (0, 0, 0)%float
  else
    let blue := 0%float in
    if percentage <=? LOW_BATTERY_THRESHOLD then
      let red := 1%float in
      let green := (number percentage / number LOW_BATTERY_THRESHOLD)%float in
      (red, green, blue)
    else
      let green := 1%float in
      let red :=
        (1 - (number percentage - number LOW_BATTERY_THRESHOLD)
             / number LOW_BATTERY_THRESHOLD)%float in
      (red, green, blue).

(** The rational value of a finite binary64 number. *)
Definition value (f : float) : option Q :=
  match Prim2SF f with
  | S754_zero _ => Some 0%Q
  | S754_finite s m e =>
      let v := (inject_Z (Z.pos m) * Qpower 2 e)%Q in
      Some (if s then Qopp v else v)
  | _ => None
  end.

(** [f] is finite and within [2^-53] of [q]. *)
Definition rounds (f : float) (q : Q) : bool :=
  match value f with
  | Some v => Qle_bool (Qabs (v - q)) (Qpower 2 (-53))
  | None => false
  end.

Definition binary64_close (p : Z) : bool :=
  let '(r, g, b) := _calculateColor_binary64 (mkStatus p false) in
  rounds r (red (color p)) && rounds g (green (color p))
  && rounds b (blue (color p)).

(** The exact distance between two finite binary64 numbers is at most
    [bound]. *)
Definition within (bound : Q) (f g : float) : bool :=
  match value f, value g with
  | Some v, Some w => Qle_bool (Qabs (v - w)) bound
  | _, _ => false
  end.

Definition binary64_step (bound : Q) (p : Z) : bool :=
  let '(r1, g1, b1) := _calculateColor_binary64 (mkStatus p false) in
  let '(r2, g2, b2) := _calculateColor_binary64 (mkStatus (p + 1) false) in
  within bound r2 r1 && within bound g2 g1 && within bound b2 b1.

(** ** The rest of the widget and of the extension *)

Definition PANEL_SIZE_RATIO : Q := 9 # 10.
Definition MIN_INDICATOR_SIZE : Z := 22.

(** [_calculateSize()], for the height of the panel ([Main.panel.height]). *)
Definition _calculateSize (panel_height : Q) : Z :=
  Z.max MIN_INDICATOR_SIZE (Qfloor (panel_height * PANEL_SIZE_RATIO)).

(** [n] repaints in a row on the same widget and surface. *)
Fixpoint repaints (svg_file : string -> SvgResource)
    (textExtents : Z -> string -> TextExtents)
    (this : CircleIndicator) (width height : Z) (n : nat) : Run unit :=
  match n with
  | O => ret tt
  | S k =>
      bind (_onRepaint svg_file textExtents this width height)
        (fun _ => repaints svg_file textExtents this width height k)
  end.

(** The numbers of [save] and of [restore] among drawing commands. *)
Definition is_save (op : CairoOp) : bool :=
  match op with save => true | _ => false end.

Definition is_restore (op : CairoOp) : bool :=
  match op with restore => true | _ => false end.

(** The widget with another parent container. *)
Definition set_parent (this : CircleIndicator) (parent : option nat)
  : CircleIndicator :=
  {| _status := _status this;
     _extensionPath := _extensionPath this;
     _color := _color this;
     visible := visible this;
     get_parent := parent;
     queued_repaints := queued_repaints this |}.

(** [Main.panel._rightBox], as a container. *)
Definition _rightBox : nat := 0%nat.

(** [_initializeUPower()], for what [get_display_device()] returns. *)
Definition _initializeUPower (display_device : option Device)
  : Outcome Device :=
  match display_device with
  | Some device => Returned device
  | None => Thrown "Failed to get UPower display device"
  end.

(** [_createIndicator()].  The third component tells whether the deferred
    callback that hides the stock icon was scheduled with [GLib.idle_add]. *)
Definition _createIndicator (path : string) (settings : Settings)
    (device : Device) (shell : Shell) : Shell * Extension * bool :=
  let stockIcon := shell in
  let iconParent :=
    match stockIcon with Some s => stock_parent s | None => None end in
  let indicator := _init (mkStatus (-1) false) path in
  match iconParent, stockIcon with
  | Some parent, Some stock =>
      (shell,
       mkExtension settings device
         (Some (set_parent indicator (Some parent)))
         true (Some parent) (stock_visible stock),
       true)
  | _, _ =>
      (shell,
       mkExtension settings device
         (Some (set_parent indicator (Some _rightBox)))
         (match stockIcon with Some _ => true | None => false end)
         iconParent false,
       false)
  end.

(** The callback given to [GLib.idle_add] by [_createIndicator]. *)
Definition idle_hide_stock (shell : Shell) (this : Extension) : Shell :=
  if _stockIcon this
  then match shell with
       | Some s => Some (mkStock (stock_parent s) false)
       | None => None
       end
  else shell.

(** [enable()]: the settings, the display device, the indicator, and the
    first [_updateIndicator] made by [_startUpdateTimer].  Signal handlers and
    the timer are modelled apart, below. *)
Definition enable (path : string) (settings : Settings)
    (display_device : option Device) (shell : Shell)
  : Outcome (Shell * Extension) :=
  match _initializeUPower display_device with
  | Thrown error => Thrown error
  | Returned device =>
      let '(shell, this, _) := _createIndicator path settings device shell in
      let '(shell, this, _) := _updateIndicator shell this in
      Returned (shell, this)
  end.

(** [_restoreStockIcon()] *)
Definition _restoreStockIcon (shell : Shell) (this : Extension)
  : Shell * Extension :=
  match _iconParent this, _stockIcon this with
  | Some parent, true =>
      let shell :=
        if _stockWasVisible this
        then match shell with
             | Some s => Some (mkStock (stock_parent s) true)
             | None => None
             end
        else shell in
      let indicator :=
        match _indicator this with
        | Some i =>
            Some (match get_parent i with
                  | Some q => if Nat.eqb q parent then set_parent i None else i
                  | None => i
                  end)
        | None => None
        end in
      (shell, set_indicator this indicator)
  | _, _ => (shell, this)
  end.

(** [_destroyIndicator()] *)
Definition _destroyIndicator (this : Extension) : Extension :=
  set_indicator this None.

(** [disable()], as far as the shell and the indicator go: the stock icon
    is restored and the indicator destroyed; [_cleanupReferences] then drops
    every reference the extension object holds. *)
Definition disable (shell : Shell) (this : Extension)
  : Shell * option CircleIndicator :=
  let '(shell, this) := _restoreStockIcon shell this in
  (shell, _indicator (_destroyIndicator this)).

(** What happens between [enable] and [disable]: a timer tick or a change
    notification, with what the device and the settings hold at that time,
    or the run of the deferred callback of [_createIndicator]. *)
Inductive Event : Set :=
| tick (device : Device) (settings : Settings)
| idle.

Definition step (ev : Event) (st : Shell * Extension) : Shell * Extension :=
  let '(shell, this) := st in
  match ev with
  | tick device settings =>
      fst (_updateIndicator shell
             (mkExtension settings device (_indicator this)
                (_stockIcon this) (_iconParent this) (_stockWasVisible this)))
  | idle => (idle_hide_stock shell this, this)
  end.

Fixpoint run (evs : list Event) (st : Shell * Extension)
  : Shell * Extension :=
  match evs with
  | [] => st
  | ev :: rest => run rest (step ev st)
  end.

(** The cached colour of the indicator is the colour of its status. *)
Definition coherent (this : Extension) : Prop :=
  match _indicator this with
  | Some i => _color i = _calculateColor (_status i)
  | None => True
  end.

(** What an observer of the panel sees of the indicator. *)
Definition appearance (this : Extension)
  : option (BatteryStatus * Color * bool * option nat) :=
  match _indicator this with
  | Some i => Some (_status i, _color i, visible i, get_parent i)
  | None => None
  end.

Definition is_show_or_hide (c : Call) : bool :=
  match c with indicator_show | indicator_hide => true | _ => false end.

Definition is_update (c : Call) : bool :=
  match c with indicator_update _ => true | _ => false end.

Definition count (f : Call -> bool) (calls : list Call) : nat :=
  List.length (filter f calls).

(** The shell with its stock icon hidden. *)
Definition hidden_stock (shell : Shell) : Shell :=
  match shell with
  | Some s => Some (mkStock (stock_parent s) false)
  | None => None
  end.

(** The widget after the first part of an update: next to the stock icon
    when the icon has just been found with a parent. *)
Definition adopted (shell : Shell) (this : Extension) (i : CircleIndicator)
  : CircleIndicator :=
  if _stockIcon this then i
  else match shell with
       | Some s =>
           match stock_parent s with
           | Some parent => set_parent i (Some parent)
           | None => i
           end
       | None => i
       end.

(** The widget after the second part of an update. *)
Definition decided (this : Extension) (i : CircleIndicator)
  : CircleIndicator :=
  let status := reading (_device this) in
  if percentage status <? MIN_BATTERY_PERCENT then hide i
  else if shouldShow status
            (fst (_getValidatedThreshold this CHARGING_KEY))
            (fst (_getValidatedThreshold this DISCHARGING_KEY))
       then show (update i status)
       else hide (update i status).

(** The extension holds the stock icon, hidden, under this parent, and
    remembers this visibility for an icon that has a parent. *)
Definition holds_stock (parent : option nat) (was : bool)
    (st : Shell * Extension) : Prop :=
  fst st = Some (mkStock parent false)
  /\ _stockIcon (snd st) = true
  /\ _iconParent (snd st) = parent
  /\ (parent <> None -> _stockWasVisible (snd st) = was).

(** ** [prefs.js] *)

Definition SLIDER_MIN : Q := 0.
Definition SLIDER_MAX : Q := 100.

(** [settings.set_int(key, value)] *)
Definition set_int (settings : Settings) (key : string) (value : Z)
  : Settings :=
  fun k => if String.eqb k key then value else settings k.

(** The [value-changed] handler of a threshold row, for the key of the row
    and the value the scale holds ([scale.get_value()]). *)
Definition value_changed (key : string) (scale_value : Q)
    (settings : Settings) : Settings :=
  let value := Math_round scale_value in
  set_int settings key value.

(** ** Signals and the timer

    Handler ids and source ids are positive numbers given out by the host,
    each from its own counter; an object only disconnects a handler that is
    connected to it. *)

Record Host : Set := mkHost {
  settings_handlers : list nat;
  device_handlers : list nat;
  timeouts : list nat;
  next_handler : nat;
  next_source : nat
}.

(** [this._settings.connect(...)] *)
Definition connect_settings (h : Host) : nat * Host :=
  (next_handler h,
   mkHost (settings_handlers h ++ [next_handler h]) (device_handlers h)
     (timeouts h) (S (next_handler h)) (next_source h)).

(** [this._device.connect(...)] *)
Definition connect_device (h : Host) : nat * Host :=
  (next_handler h,
   mkHost (settings_handlers h) (device_handlers h ++ [next_handler h])
     (timeouts h) (S (next_handler h)) (next_source h)).

(** [GLib.timeout_add_seconds(...)] *)
Definition timeout_add_seconds (h : Host) : nat * Host :=
  (next_source h,
   mkHost (settings_handlers h) (device_handlers h)
     (timeouts h ++ [next_source h]) (next_handler h) (S (next_source h))).

(** [this._settings.disconnect(id)] *)
Definition disconnect_settings (id : nat) (h : Host) : Host :=
  mkHost (filter (fun j => negb (Nat.eqb j id)) (settings_handlers h))
    (device_handlers h) (timeouts h) (next_handler h) (next_source h).

(** [GLib.source_remove(id)] *)
Definition source_remove (id : nat) (h : Host) : Host :=
  mkHost (settings_handlers h) (device_handlers h)
    (filter (fun j => negb (Nat.eqb j id)) (timeouts h))
    (next_handler h) (next_source h).

(** [_setupSignals()]: the new [_signals] and the host. *)
Definition _setupSignals (h : Host) : list nat * Host :=
  let '(s1, h) := connect_settings h in
  let '(s2, h) := connect_settings h in
  let '(s3, h) := connect_device h in
  let '(s4, h) := connect_device h in
  ([s1; s2; s3; s4], h).

(** The timer part of [_startUpdateTimer()]: the new [_timeoutId]. *)
Definition _startUpdateTimer (h : Host) : nat * Host :=
  timeout_add_seconds h.

(** [_stopUpdateTimer()]: the new [_timeoutId] and the host. *)
Definition _stopUpdateTimer (_timeoutId : nat) (h : Host) : nat * Host :=
  if Nat.eqb _timeoutId 0 then (_timeoutId, h)
  else (0%nat, source_remove _timeoutId h).

(** [_disconnectSignals()]: the new [_signals] and the host. *)
Definition _disconnectSignals (_signals : list nat) (h : Host)
  : list nat * Host :=
  ([],
   fold_left
     (fun h signalId =>
        if Nat.eqb signalId 0 then h else disconnect_settings signalId h)
     _signals h).

(** The timer and signal part of [enable] followed by that of [disable]. *)
Definition connect_then_disconnect (h : Host) : Host :=
  let '(_signals, h) := _setupSignals h in
  let '(_timeoutId, h) := _startUpdateTimer h in
  let '(_, h) := _stopUpdateTimer _timeoutId h in
  let '(_, h) := _disconnectSignals _signals h in
  h.

(** The ids in use are positive and below the counters. *)
Definition fresh (h : Host) : Prop :=
  (0 < next_handler h)%nat
  /\ (0 < next_source h)%nat
  /\ Forall (fun j => (j < next_handler h)%nat) (settings_handlers h)
  /\ Forall (fun j => (j < next_source h)%nat) (timeouts h).

(** The extension with other settings. *)
Definition with_settings (this : Extension) (settings : Settings)
  : Extension :=
  mkExtension settings (_device this) (_indicator this)
    (_stockIcon this) (_iconParent this) (_stockWasVisible this).

(** What one repaint on a fresh context draws and logs. *)
Definition repaint_effects (svg_file : string -> SvgResource)
    (textExtents : Z -> string -> TextExtents)
    (this : CircleIndicator) (width height : Z) : Effects :=
  snd (_onRepaint svg_file textExtents this width height no_effects).

(** ** The arc as drawn, and in binary64 *)








(** Every channel of the binary64 colour of [s2] is a finite number within
    [bound] of the same channel for [s1]. *)
Definition binary64_within (bound : Q) (s1 s2 : BatteryStatus) : bool :=
  let '(r1, g1, b1) := _calculateColor_binary64 s1 in
  let '(r2, g2, b2) := _calculateColor_binary64 s2 in
  within bound r2 r1 && within bound g2 g1 && within bound b2 b1.

(** The change of the green channel between [s1] and [s2] as JavaScript
    evaluates it, compared with [1/50] as JavaScript evaluates it. *)
Definition green_step_at_most_fiftieth (s1 s2 : BatteryStatus) : bool :=
  PrimFloat.leb
    (PrimFloat.abs
       (snd (fst (_calculateColor_binary64 s2))
        - snd (fst (_calculateColor_binary64 s1))))
    (1 / 50).

(** The inputs on which the scale of the glyph is a positive finite
    number: when the status is charging and the glyph loads, the image and
    the text have a positive height. *)
Definition finite_scale (svg_file : string -> SvgResource)
    (textExtents : Z -> string -> TextExtents)
    (this : CircleIndicator) (height : Z) : Prop :=
  isCharging (_status this) = true ->
  forall w h : Z,
    svg_file (_extensionPath this ++ "/charging.svg")%string = SvgImage w h ->
    0 < h
    /\ (0 < te_height
              (textExtents (Math_round (inject_Z height * FONT_SIZE_RATIO))
                 (String_of (percentage (_status this)))))%Q.

(** * Properties *)

(** ** The stock-icon bookkeeping leaves the decision's inputs alone *)

Lemma find_stock_icon_frame (shell : Shell) (this : Extension) :
  let '(_, this', calls) := find_stock_icon shell this in
  _settings this' = _settings this
  /\ _device this' = _device this
  /\ (forall i, _indicator this = Some i ->
        exists i', _indicator this' = Some i' /\ visible i' = visible i)
  /\ (_indicator this = None -> _indicator this' = None)
  /\ existsb is_get_int calls = false.
Proof.
  unfold find_stock_icon.
  destruct this as [s dv ind held par was]; simpl.
  destruct held; simpl.
  - destruct shell; simpl; repeat split; eauto; try discriminate.
  - destruct shell as [[[q|] v]|]; simpl.
    + destruct ind as [i|]; simpl.
      * destruct (negb _); simpl; repeat split; eauto; try discriminate;
          intros j [= <-]; eexists; split; reflexivity.
      * repeat split; eauto; discriminate.
    + repeat split; eauto; try discriminate.
    + repeat split; eauto; try discriminate.
Qed.

(** ** What [_updateIndicator] decides *)

(** The visibility left by one update, as a function of the reading and of
    the validated thresholds. *)
Lemma shown_after_update (shell : Shell) (this : Extension) :
  shown (after_update shell this) =
  match _indicator this with
  | Some _ =>
      negb (percentage (reading (_device this)) <? MIN_BATTERY_PERCENT)
      && shouldShow (reading (_device this))
           (fst (_getValidatedThreshold this CHARGING_KEY))
           (fst (_getValidatedThreshold this DISCHARGING_KEY))
  | None => false
  end.
Proof.
  unfold after_update, _updateIndicator.
  pose proof (find_stock_icon_frame shell this) as F.
  destruct (find_stock_icon shell this) as [[shell' this'] calls].
  destruct F as (Hs & Hd & Hsome & Hnone & _).
  unfold _getValidatedThreshold, shouldShow, shown, on_indicator.
  cbn [fst snd _settings set_indicator]. rewrite Hs.
  set (st := reading (_device this)).
  set (vc := Z.max _ (Z.min _ (get_int _ CHARGING_KEY))).
  set (vd := Z.max _ (Z.min _ (get_int _ DISCHARGING_KEY))).
  clearbody st vc vd.
  assert (Hind : _indicator this' = None /\ _indicator this = None
                 \/ exists i i', _indicator this' = Some i'
                                 /\ _indicator this = Some i).
  { destruct (_indicator this) as [i|].
    - destruct (Hsome i eq_refl) as (i' & E & _). right. eauto.
    - left. auto. }
  destruct Hind as [[-> ->] | (i & i' & -> & ->)];
    destruct (percentage st <? MIN_BATTERY_PERCENT); cbn;
    try reflexivity;
    destruct (isCharging st);
    repeat match goal with
           | |- context [?a <? ?b] => destruct (a <? b)
           end; reflexivity.
Qed.

(** When the reading is negative the update returns before it reads any
    setting. *)
Lemma no_read_when_negative (shell : Shell) (this : Extension) :
  percentage (reading (_device this)) < MIN_BATTERY_PERCENT ->
  existsb is_get_int (calls_of_update shell this) = false.
Proof.
  intros Hneg. apply Z.ltb_lt in Hneg.
  unfold calls_of_update, _updateIndicator.
  pose proof (find_stock_icon_frame shell this) as F.
  destruct (find_stock_icon shell this) as [[shell' this'] calls].
  destruct F as (_ & _ & _ & _ & Hcalls).
  rewrite Hneg. unfold on_indicator.
  destruct (_indicator this'); simpl; rewrite existsb_app, Hcalls; reflexivity.
Qed.

(** ** The gauge colour *)

Lemma _calculateColor_low (status : BatteryStatus) :
  0 <= percentage status <= 50 ->
  _calculateColor status = (1, inject_Z (percentage status) / 50, 0)%Q.
Proof.
  intros [H0 H50]. unfold _calculateColor.
  replace (percentage status <? MIN_BATTERY_PERCENT) with false
    by (symmetry; apply Z.ltb_ge; exact H0).
  replace (percentage status >? MAX_BATTERY_PERCENT) with false
    by (symmetry; rewrite Z.gtb_ltb; apply Z.ltb_ge;
        unfold MAX_BATTERY_PERCENT; lia).
  replace (percentage status <=? LOW_BATTERY_THRESHOLD) with true
    by (symmetry; apply Z.leb_le; exact H50).
  reflexivity.
Qed.

Lemma _calculateColor_high (status : BatteryStatus) :
  50 < percentage status <= 100 ->
  _calculateColor status
  = (1 - inject_Z (percentage status - 50) / 50, 1, 0)%Q.
Proof.
  intros [H50 H100]. unfold _calculateColor.
  replace (percentage status <? MIN_BATTERY_PERCENT) with false
    by (symmetry; apply Z.ltb_ge; unfold MIN_BATTERY_PERCENT; lia).
  replace (percentage status >? MAX_BATTERY_PERCENT) with false
    by (symmetry; rewrite Z.gtb_ltb; apply Z.ltb_ge; exact H100).
  replace (percentage status <=? LOW_BATTERY_THRESHOLD) with false
    by (symmetry; apply Z.leb_gt; exact H50).
  reflexivity.
Qed.

Lemma _calculateColor_invalid (status : BatteryStatus) :
  percentage status < 0 \/ 100 < percentage status ->
  _calculateColor status = (0, 0, 0)%Q.
Proof.
  intros H. unfold _calculateColor.
  replace ((percentage status <? MIN_BATTERY_PERCENT)
           || (percentage status >? MAX_BATTERY_PERCENT)) with true.
  - reflexivity.
  - symmetry. apply orb_true_iff. rewrite Z.gtb_ltb, !Z.ltb_lt.
    exact H.
Qed.

(** The three channels of an in-range percentage, as linear expressions of
    the percentage read as a rational. *)
Lemma channels (status : BatteryStatus) :
  let x := inject_Z (percentage status) in
  0 <= percentage status <= 100 ->
  (0 <= x <= 100)%Q
  /\ (blue (_calculateColor status) == 0)%Q
  /\ ((x <= 50)%Q ->
      red (_calculateColor status) == 1
      /\ green (_calculateColor status) == x * (1 # 50))%Q
  /\ ((50 < x)%Q ->
      red (_calculateColor status) == 1 - (x - 50) * (1 # 50)
      /\ green (_calculateColor status) == 1)%Q.
Proof.
  intros x [H0 H100].
  assert (Hx : (0 <= x <= 100)%Q).
  { split; [change 0%Q with (inject_Z 0) | change 100%Q with (inject_Z 100)];
      unfold x; rewrite <- Zle_Qle; assumption. }
  split; [exact Hx|].
  destruct (Z_le_gt_dec (percentage status) 50) as [Hle | Hgt].
  - assert (Hq : (x <= 50)%Q).
    { change 50%Q with (inject_Z 50). unfold x. rewrite <- Zle_Qle. exact Hle. }
    rewrite (_calculateColor_low status (conj H0 Hle)).
    cbn [red green blue fst snd]. fold x.
    split; [reflexivity|]. split.
    + intros _. split; reflexivity.
    + intros Hlt. exfalso. exact (Qlt_not_le _ _ Hlt Hq).
  - assert (H50 : 50 < percentage status) by lia.
    assert (Hq : (50 < x)%Q).
    { change 50%Q with (inject_Z 50). unfold x. rewrite <- Zlt_Qlt. exact H50. }
    rewrite (_calculateColor_high status (conj H50 H100)).
    cbn [red green blue fst snd].
    unfold Z.sub. rewrite inject_Z_plus. fold x.
    split; [reflexivity|]. split.
    + intros Hle. exfalso. exact (Qle_not_lt _ _ Hle Hq).
    + intros _. split; reflexivity.
Qed.

(** C3.  For a percentage in [0,100] the colour is (1, p/50, 0) up to 50
    and (1 - (p-50)/50, 1, 0) above 50; it is red (1,0,0) at 0, yellow
    (1,1,0) at 50 and green (0,1,0) at 100. *)
Theorem gauge_color_formula (status : BatteryStatus) :
  0 <= percentage status <= 100 ->
  (percentage status <= 50 ->
   Color_eq (_calculateColor status)
     (1, inject_Z (percentage status) / 50, 0)%Q)
  /\ (50 < percentage status ->
      Color_eq (_calculateColor status)
        (1 - (inject_Z (percentage status) - 50) / 50, 1, 0)%Q)
  /\ (percentage status = 0 ->
      Color_eq (_calculateColor status) (1, 0, 0)%Q)
  /\ (percentage status = 50 ->
      Color_eq (_calculateColor status) (1, 1, 0)%Q)
  /\ (percentage status = 100 ->
      Color_eq (_calculateColor status) (0, 1, 0)%Q).
Proof.
  intros Hrange.
  destruct (channels status Hrange) as (Hx & Hb & Hlow & Hhigh).
  unfold Color_eq.
  assert (Hle : percentage status <= 50 ->
                (inject_Z (percentage status) <= 50)%Q).
  { intros H. change 50%Q with (inject_Z 50). rewrite <- Zle_Qle. exact H. }
  assert (Hgt : 50 < percentage status ->
                (50 < inject_Z (percentage status))%Q).
  { intros H. change 50%Q with (inject_Z 50). rewrite <- Zlt_Qlt. exact H. }
  repeat apply conj.
  - intros H. destruct (Hlow (Hle H)) as [Hr Hg].
    unfold Qdiv. change (/ 50)%Q with (1 # 50)%Q. auto.
  - intros H. destruct (Hhigh (Hgt H)) as [Hr Hg].
    unfold Qdiv. change (/ 50)%Q with (1 # 50)%Q. auto.
  - intros H. destruct Hlow as [Hr Hg]; [apply Hle; lia|].
    rewrite H in *. rewrite Hr, Hg, Hb. repeat split; reflexivity.
  - intros H. destruct Hlow as [Hr Hg]; [apply Hle; lia|].
    rewrite H in *. rewrite Hr, Hg, Hb. repeat split; reflexivity.
  - intros H. destruct Hhigh as [Hr Hg]; [apply Hgt; lia|].
    rewrite H in *. rewrite Hr, Hg, Hb. repeat split; reflexivity.
Qed.

Lemma gauge_color_formula_witness :
  0 <= percentage (mkStatus 50 true) <= 100
  /\ Color_eq (_calculateColor (mkStatus 50 true)) (1, 1, 0)%Q.
Proof.
  split.
  - simpl. lia.
  - apply (gauge_color_formula (mkStatus 50 true)); simpl; [lia | reflexivity].
Defined.

(** C5.  A percentage outside [0,100], such as -1 or 101, gives the
    black triple [0, 0, 0]. *)
Theorem invalid_percentage_is_black (status : BatteryStatus) :
  percentage status < 0 \/ 100 < percentage status ->
  _calculateColor status = (0, 0, 0)%Q
  /\ color (-1) = (0, 0, 0)%Q
  /\ color 101 = (0, 0, 0)%Q.
Proof.
  intros H. split; [apply _calculateColor_invalid; exact H|].
  split; reflexivity.
Qed.

Lemma invalid_percentage_is_black_witness :
  (percentage (mkStatus 101 true) < 0 \/ 100 < percentage (mkStatus 101 true))
  /\ _calculateColor (mkStatus 101 true) = (0, 0, 0)%Q.
Proof.
  split.
  - right. simpl. lia.
  - apply (invalid_percentage_is_black (mkStatus 101 true)).
    right. simpl. lia.
Defined.

(** In exact arithmetic no channel moves by more than 1/50 between two
    adjacent percentages p and p+1 of [0,100]. *)
Lemma adjacent_channels_close (s1 s2 : BatteryStatus) :
  0 <= percentage s1 ->
  percentage s2 = percentage s1 + 1 ->
  percentage s2 <= 100 ->
  (Qabs (red (_calculateColor s2) - red (_calculateColor s1)) <= 1 # 50
   /\ Qabs (green (_calculateColor s2) - green (_calculateColor s1)) <= 1 # 50
   /\ Qabs (blue (_calculateColor s2) - blue (_calculateColor s1)) <= 1 # 50)%Q.
Proof.
  intros H0 Hnext H100.
  assert (R1 : 0 <= percentage s1 <= 100) by lia.
  assert (R2 : 0 <= percentage s2 <= 100) by lia.
  destruct (channels s1 R1) as (Hx1 & Hb1 & Hlow1 & Hhigh1).
  destruct (channels s2 R2) as (Hx2 & Hb2 & Hlow2 & Hhigh2).
  rewrite Hnext, inject_Z_plus in Hx2, Hlow2, Hhigh2.
  change (inject_Z 1) with 1%Q in *.
  set (x := inject_Z (percentage s1)) in *. clearbody x.
  rewrite !Qabs_Qle_condition.
  destruct (Qlt_le_dec 50 x) as [Hx | Hx].
  - destruct Hhigh1 as [Hr1 Hg1]; [exact Hx|].
    destruct Hhigh2 as [Hr2 Hg2]; [lra|].
    rewrite Hr1, Hr2, Hg1, Hg2, Hb1, Hb2. repeat split; lra.
  - destruct Hlow1 as [Hr1 Hg1]; [exact Hx|].
    destruct (Qlt_le_dec 50 (x + 1)) as [Hy | Hy].
    + destruct Hhigh2 as [Hr2 Hg2]; [exact Hy|].
      rewrite Hr1, Hr2, Hg1, Hg2, Hb1, Hb2. repeat split; lra.
    + destruct Hlow2 as [Hr2 Hg2]; [exact Hy|].
      rewrite Hr1, Hr2, Hg1, Hg2, Hb1, Hb2. repeat split; lra.
Qed.

(** C10.  Over [0,100] the red channel never rises and the green channel
    never falls as the percentage grows, and the blue channel is 0. *)
Theorem color_monotone (s1 s2 : BatteryStatus) :
  0 <= percentage s1 ->
  percentage s1 <= percentage s2 ->
  percentage s2 <= 100 ->
  (red (_calculateColor s2) <= red (_calculateColor s1)
   /\ green (_calculateColor s1) <= green (_calculateColor s2)
   /\ blue (_calculateColor s1) == 0
   /\ blue (_calculateColor s2) == 0)%Q.
Proof.
  intros H0 Hle H100.
  assert (R1 : 0 <= percentage s1 <= 100) by lia.
  assert (R2 : 0 <= percentage s2 <= 100) by lia.
  destruct (channels s1 R1) as (Hx1 & Hb1 & Hlow1 & Hhigh1).
  destruct (channels s2 R2) as (Hx2 & Hb2 & Hlow2 & Hhigh2).
  assert (Hxy : (inject_Z (percentage s1) <= inject_Z (percentage s2))%Q)
    by (rewrite <- Zle_Qle; exact Hle).
  set (x := inject_Z (percentage s1)) in *.
  set (y := inject_Z (percentage s2)) in *.
  clearbody x y.
  destruct (Qlt_le_dec 50 x) as [Hx | Hx];
    destruct (Qlt_le_dec 50 y) as [Hy | Hy];
    try (exfalso; lra);
    [ destruct Hhigh1 as [Hr1 Hg1]; [exact Hx|]
    | destruct Hlow1 as [Hr1 Hg1]; [exact Hx|]
    | destruct Hlow1 as [Hr1 Hg1]; [exact Hx|] ];
    [ destruct Hhigh2 as [Hr2 Hg2]; [exact Hy|]
    | destruct Hhigh2 as [Hr2 Hg2]; [exact Hy|]
    | destruct Hlow2 as [Hr2 Hg2]; [exact Hy|] ];
    rewrite Hr1, Hr2, Hg1, Hg2; repeat split; try assumption; lra.
Qed.

Lemma color_monotone_witness :
  0 <= percentage (mkStatus 30 false)
  /\ percentage (mkStatus 30 false) <= percentage (mkStatus 80 true)
  /\ percentage (mkStatus 80 true) <= 100
  /\ (red (_calculateColor (mkStatus 80 true))
      <= red (_calculateColor (mkStatus 30 false)))%Q.
Proof.
  assert (A : 0 <= percentage (mkStatus 30 false)) by (simpl; lia).
  assert (B : percentage (mkStatus 30 false) <= percentage (mkStatus 80 true))
    by (simpl; lia).
  assert (C : percentage (mkStatus 80 true) <= 100) by (simpl; lia).
  split; [exact A | split; [exact B | split; [exact C |]]].
  exact (proj1 (color_monotone _ _ A B C)).
Defined.

(** ** The filled arc *)

Lemma Math_PI_pos : (0 < Math_PI)%Q.
Proof. reflexivity. Qed.

(** The sweep is the percentage times [Math.PI / 50]. *)
Lemma sweep_linear (status : BatteryStatus) :
  (sweep status == inject_Z (percentage status) * (Math_PI / 50))%Q.
Proof.
  unfold sweep, arcEndAngle, ARC_START_ANGLE, MAX_BATTERY_PERCENT,
    DEGREES_PER_PERCENT, Z.sub.
  rewrite inject_Z_plus, inject_Z_opp.
  change (inject_Z 100) with 100%Q.
  generalize (inject_Z (percentage status)) Math_PI. intros x pi.
  field.
Qed.


(** ** Showing and hiding *)

Lemma validated_in_range (this : Extension) (key : string) :
  0 <= get_int (_settings this) key <= 100 ->
  fst (_getValidatedThreshold this key) = get_int (_settings this) key.
Proof.
  unfold _getValidatedThreshold, MIN_BATTERY_PERCENT, MAX_BATTERY_PERCENT.
  cbn [fst]. lia.
Qed.

Lemma validated_bounds (this : Extension) (key : string) :
  0 <= fst (_getValidatedThreshold this key) <= 100.
Proof.
  unfold _getValidatedThreshold, MIN_BATTERY_PERCENT, MAX_BATTERY_PERCENT.
  cbn [fst]. lia.
Qed.

(** C1.  With a reading of at least 0 and stored thresholds in [0,100],
    a charging battery shows the indicator exactly when the percentage is
    below the charging threshold or below the discharging threshold, that
    is below the larger of the two; a battery that is not charging shows
    it exactly when the percentage is below the discharging threshold. *)
Theorem visibility_thresholds (shell : Shell) (this : Extension)
    (ind : CircleIndicator) :
  _indicator this = Some ind ->
  0 <= percentage (reading (_device this)) ->
  0 <= get_int (_settings this) CHARGING_KEY <= 100 ->
  0 <= get_int (_settings this) DISCHARGING_KEY <= 100 ->
  (isCharging (reading (_device this)) = true ->
   (shown (after_update shell this) = true <->
    percentage (reading (_device this)) < get_int (_settings this) CHARGING_KEY
    \/ percentage (reading (_device this))
       < get_int (_settings this) DISCHARGING_KEY)
   /\ (shown (after_update shell this) = true <->
       percentage (reading (_device this))
       < Z.max (get_int (_settings this) CHARGING_KEY)
               (get_int (_settings this) DISCHARGING_KEY)))
  /\ (isCharging (reading (_device this)) = false ->
      (shown (after_update shell this) = true <->
       percentage (reading (_device this))
       < get_int (_settings this) DISCHARGING_KEY)).
Proof.
  intros Hind Hp Hc Hd.
  rewrite shown_after_update, Hind.
  rewrite (validated_in_range this CHARGING_KEY Hc).
  rewrite (validated_in_range this DISCHARGING_KEY Hd).
  replace (percentage (reading (_device this)) <? MIN_BATTERY_PERCENT)
    with false by (symmetry; apply Z.ltb_ge; exact Hp).
  unfold shouldShow. cbn [negb andb].
  split; intros ->.
  - rewrite orb_true_iff, !Z.ltb_lt. split; [tauto | lia].
  - rewrite Z.ltb_lt. tauto.
Qed.

Lemma visibility_thresholds_witness :
  _indicator (enabled 85 CHARGING 80 90)
  = Some (_init (mkStatus (-1) false) "/ext")
  /\ 0 <= percentage (reading (_device (enabled 85 CHARGING 80 90)))
  /\ 0 <= get_int (_settings (enabled 85 CHARGING 80 90)) CHARGING_KEY <= 100
  /\ 0 <= get_int (_settings (enabled 85 CHARGING 80 90)) DISCHARGING_KEY <= 100
  /\ (shown (after_update None (enabled 85 CHARGING 80 90)) = true <->
      percentage (reading (_device (enabled 85 CHARGING 80 90)))
      < Z.max (get_int (_settings (enabled 85 CHARGING 80 90)) CHARGING_KEY)
              (get_int (_settings (enabled 85 CHARGING 80 90)) DISCHARGING_KEY)).
Proof.
  assert (A : _indicator (enabled 85 CHARGING 80 90)
              = Some (_init (mkStatus (-1) false) "/ext")) by reflexivity.
  assert (B : 0 <= percentage (reading (_device (enabled 85 CHARGING 80 90))))
    by (vm_compute; discriminate).
  assert (C : 0 <= get_int (_settings (enabled 85 CHARGING 80 90)) CHARGING_KEY
              <= 100) by (vm_compute; split; discriminate).
  assert (D : 0 <= get_int (_settings (enabled 85 CHARGING 80 90))
                     DISCHARGING_KEY <= 100)
    by (vm_compute; split; discriminate).
  split; [exact A | split; [exact B | split; [exact C | split; [exact D |]]]].
  exact (proj2 (proj1 (visibility_thresholds None _ _ A B C D) eq_refl)).
Defined.

(** The visibility examples of the specification, section 8, items 3-5. *)
Example shouldShow_examples :
  shown (after_update None (enabled (-1) DISCHARGING 80 90)) = false
  /\ shown (after_update None (enabled 85 DISCHARGING 80 90)) = true
  /\ shown (after_update None (enabled 95 DISCHARGING 80 90)) = false
  /\ shown (after_update None (enabled 85 CHARGING 80 90)) = true
  /\ shown (after_update None (enabled 95 CHARGING 80 90)) = false.
Proof. repeat split; reflexivity. Qed.

(** C2.  A negative reading hides the indicator whatever the device state
    and the stored thresholds are, and the update returns before any
    threshold is read from the settings. *)
Theorem sentinel_hides (shell : Shell) (this : Extension) :
  percentage (reading (_device this)) < 0 ->
  shown (after_update shell this) = false
  /\ existsb is_get_int (calls_of_update shell this) = false.
Proof.
  intros Hneg. split.
  - rewrite shown_after_update.
    destruct (_indicator this); [|reflexivity].
    replace (percentage (reading (_device this)) <? MIN_BATTERY_PERCENT)
      with true by (symmetry; apply Z.ltb_lt; exact Hneg).
    reflexivity.
  - apply no_read_when_negative. exact Hneg.
Qed.

Lemma sentinel_hides_witness :
  percentage (reading (_device (enabled (-1) CHARGING 100 100))) < 0
  /\ shown (after_update None (enabled (-1) CHARGING 100 100)) = false.
Proof.
  assert (A : percentage (reading (_device (enabled (-1) CHARGING 100 100))) < 0)
    by (vm_compute; reflexivity).
  split; [exact A |].
  exact (proj1 (sentinel_hides None _ A)).
Defined.

(** C6.  A reading outside [0,100], below 0 or above 100, leaves the
    indicator hidden for every stored threshold and device state. *)
Theorem out_of_range_hidden (shell : Shell) (this : Extension) :
  percentage (reading (_device this)) < 0
  \/ 100 < percentage (reading (_device this)) ->
  shown (after_update shell this) = false.
Proof.
  intros H. rewrite shown_after_update.
  destruct (_indicator this); [|reflexivity].
  pose proof (validated_bounds this CHARGING_KEY) as Bc.
  pose proof (validated_bounds this DISCHARGING_KEY) as Bd.
  destruct H as [Hneg | Hbig].
  - replace (percentage (reading (_device this)) <? MIN_BATTERY_PERCENT)
      with true by (symmetry; apply Z.ltb_lt; exact Hneg).
    reflexivity.
  - unfold shouldShow.
    replace (percentage (reading (_device this))
             <? fst (_getValidatedThreshold this CHARGING_KEY))
      with false by (symmetry; apply Z.ltb_ge; lia).
    replace (percentage (reading (_device this))
             <? fst (_getValidatedThreshold this DISCHARGING_KEY))
      with false by (symmetry; apply Z.ltb_ge; lia).
    destruct (isCharging _); apply andb_false_r.
Qed.

Lemma out_of_range_hidden_witness :
  (percentage (reading (_device (enabled 101 CHARGING 500 (-3)))) < 0
   \/ 100 < percentage (reading (_device (enabled 101 CHARGING 500 (-3)))))
  /\ shown (after_update None (enabled 101 CHARGING 500 (-3))) = false.
Proof.
  assert (A : percentage (reading (_device (enabled 101 CHARGING 500 (-3)))) < 0
              \/ 100 < percentage
                         (reading (_device (enabled 101 CHARGING 500 (-3)))))
    by (right; vm_compute; reflexivity).
  split; [exact A |].
  exact (out_of_range_hidden None _ A).
Defined.

(** C7.  The threshold used by the decision is the stored integer clamped
    to [0,100]: the stored value itself when it lies in [0,100], 0 when it
    is negative and 100 when it exceeds 100; the percentage is compared
    with these validated values only. *)
Theorem thresholds_clamped (shell : Shell) (this : Extension) (key : string) :
  0 <= fst (_getValidatedThreshold this key) <= 100
  /\ (0 <= get_int (_settings this) key <= 100 ->
      fst (_getValidatedThreshold this key) = get_int (_settings this) key)
  /\ (get_int (_settings this) key < 0 ->
      fst (_getValidatedThreshold this key) = 0)
  /\ (100 < get_int (_settings this) key ->
      fst (_getValidatedThreshold this key) = 100)
  /\ shown (after_update shell this)
     = match _indicator this with
       | Some _ =>
           (0 <=? percentage (reading (_device this)))
           && shouldShow (reading (_device this))
                (fst (_getValidatedThreshold this CHARGING_KEY))
                (fst (_getValidatedThreshold this DISCHARGING_KEY))
       | None => false
       end.
Proof.
  split; [apply validated_bounds|].
  split; [apply validated_in_range|].
  split; [|split].
  - unfold _getValidatedThreshold, MIN_BATTERY_PERCENT, MAX_BATTERY_PERCENT.
    cbn [fst]. lia.
  - unfold _getValidatedThreshold, MIN_BATTERY_PERCENT, MAX_BATTERY_PERCENT.
    cbn [fst]. lia.
  - rewrite shown_after_update. destruct (_indicator this); [|reflexivity].
    f_equal. unfold MIN_BATTERY_PERCENT.
    rewrite Z.leb_antisym. reflexivity.
Qed.

(** ** Rendering without the charging glyph *)

Lemma repaint_not_charging (svg_file : string -> SvgResource)
    (textExtents : Z -> string -> TextExtents)
    (this : CircleIndicator) (width height : Z) :
  isCharging (_status this) = false ->
  exists eff,
    _onRepaint svg_file textExtents this width height no_effects
    = (Returned tt, eff)
    /\ logged eff = []
    /\ label_x (drawn eff)
       = Some (centred_label_x textExtents this width height).
Proof.
  destruct this as [[p chg] path [[r g] b] vis par n]. cbn [_status isCharging].
  intros ->. eexists.
  unfold _onRepaint, centred_label_x.
  cbv [bind draw ret no_effects drawn logged app _status _color isCharging
       percentage].
  split; [reflexivity|]. split; reflexivity.
Qed.

Lemma repaint_glyph_failure (svg_file : string -> SvgResource)
    (textExtents : Z -> string -> TextExtents)
    (this : CircleIndicator) (width height : Z) :
  load_fails (svg_file (_extensionPath this ++ "/charging.svg")%string) ->
  isCharging (_status this) = true ->
  exists eff line,
    _onRepaint svg_file textExtents this width height no_effects
    = (Returned tt, eff)
    /\ logged eff = [line]
    /\ label_x (drawn eff)
       = Some (centred_label_x textExtents this width height).
Proof.
  destruct this as [[p chg] path [[r g] b] vis par n].
  cbn [_status isCharging _extensionPath].
  intros Hfail ->.
  unfold _onRepaint, _drawChargingIcon, _loadChargingSvg, new_from_file,
    centred_label_x.
  cbn [_status isCharging _extensionPath _color percentage].
  destruct (svg_file (path ++ "/charging.svg")%string) as [| | w h];
    [ | | contradiction Hfail ];
    eexists; eexists;
    cbv [bind draw ret throw try_catch console_error no_effects drawn logged
         app];
    (split; [reflexivity|]); split; reflexivity.
Qed.

(** C8.  When the glyph cannot be loaded, a repaint of a charging status
    returns normally, writes exactly one line to the console, and puts the
    label where a repaint of the same status without the charging flag
    puts it: at centerX minus half the text width. *)
Theorem glyph_failure_degrades (svg_file : string -> SvgResource)
    (textExtents : Z -> string -> TextExtents)
    (this : CircleIndicator) (width height : Z) :
  load_fails (svg_file (_extensionPath this ++ "/charging.svg")%string) ->
  isCharging (_status this) = true ->
  fst (_onRepaint svg_file textExtents this width height no_effects)
  = Returned tt
  /\ List.length
       (logged (snd (_onRepaint svg_file textExtents this width height
                       no_effects))) = 1%nat
  /\ label_x (drawn (snd (_onRepaint svg_file textExtents this width height
                            no_effects)))
     = label_x (drawn (snd (_onRepaint svg_file textExtents
                              (with_charging this false) width height
                              no_effects)))
  /\ label_x (drawn (snd (_onRepaint svg_file textExtents this width height
                            no_effects)))
     = Some (inject_Z width / 2
             - te_width (textExtents
                           (Math_round (inject_Z height * FONT_SIZE_RATIO))
                           (String_of (percentage (_status this)))) / 2)%Q.
Proof.
  intros Hfail Hchg.
  destruct (repaint_glyph_failure svg_file textExtents this width height
              Hfail Hchg) as (eff & line & -> & Hlog & Hx).
  destruct (repaint_not_charging svg_file textExtents
              (with_charging this false) width height eq_refl)
    as (eff' & -> & _ & Hx').
  cbn [fst snd]. rewrite Hlog, Hx, Hx'.
  repeat split; reflexivity.
Qed.

Lemma glyph_failure_degrades_witness :
  load_fails ((fun _ => SvgUnreadable)
                (_extensionPath (_init (mkStatus 57 true) "/ext")
                 ++ "/charging.svg")%string)
  /\ isCharging (_status (_init (mkStatus 57 true) "/ext")) = true
  /\ fst (_onRepaint (fun _ => SvgUnreadable)
            (fun size text =>
               mkExtents (inject_Z (size * Z.of_nat (String.length text)))
                 (inject_Z size))
            (_init (mkStatus 57 true) "/ext") 24 24 no_effects)
     = Returned tt.
Proof.
  assert (A : load_fails ((fun _ : string => SvgUnreadable)
                            (_extensionPath (_init (mkStatus 57 true) "/ext")
                             ++ "/charging.svg")%string)) by exact I.
  assert (B : isCharging (_status (_init (mkStatus 57 true) "/ext")) = true)
    by reflexivity.
  split; [exact A | split; [exact B |]].
  exact (proj1 (glyph_failure_degrades (fun _ => SvgUnreadable)
                  (fun size text =>
                     mkExtents
                       (inject_Z (size * Z.of_nat (String.length text)))
                       (inject_Z size))
                  (_init (mkStatus 57 true) "/ext") 24 24 A B)).
Defined.

(** ** The filled arc in a repaint *)

(** Whatever the charging flag and the glyph file, a repaint returns and
    has drawn the outer arc from [ARC_START_ANGLE] to [arcEndAngle]. *)
Lemma repaint_arc (svg_file : string -> SvgResource)
    (textExtents : Z -> string -> TextExtents)
    (this : CircleIndicator) (width height : Z) :
  fst (_onRepaint svg_file textExtents this width height no_effects)
  = Returned tt
  /\ In (arc (inject_Z width / 2) (inject_Z height / 2)
           (inject_Z (Z.min width height) / 2 - RING_OUTER_PADDING)
           ARC_START_ANGLE (arcEndAngle (_status this)))%Q
        (drawn (snd (_onRepaint svg_file textExtents this width height
                       no_effects))).
Proof.
  destruct this as [[p chg] path [[r g] b] vis par n].
  unfold _onRepaint, _drawChargingIcon, _loadChargingSvg, new_from_file.
  cbn [_status isCharging _extensionPath _color percentage].
  destruct chg;
    [destruct (svg_file (path ++ "/charging.svg")%string) as [| | w h]|];
    cbv [bind draw ret throw try_catch console_error no_effects drawn logged
         app fst snd];
    (split; [reflexivity|]);
    do 5 right; left; reflexivity.
Qed.

(** ** Distance between the binary64 colour and the exact colour *)

Lemma forallb_upto (f : Z -> bool) (n : nat) (p : Z) :
  forallb f (map Z.of_nat (seq 0 n)) = true ->
  0 <= p < Z.of_nat n ->
  f p = true.
Proof.
  intros Hall Hp. rewrite forallb_forall in Hall. apply Hall.
  apply in_map_iff. exists (Z.to_nat p). split; [lia|].
  apply in_seq. lia.
Qed.

(** Every channel computed in binary64 for a percentage of [0,100] is a
    finite number within [2^-53] of the exact channel. *)
Lemma binary64_channels (p : Z) :
  0 <= p <= 100 -> binary64_close p = true.
Proof.
  intros Hp.
  apply (forallb_upto binary64_close 101); [vm_compute; reflexivity | lia].
Qed.

(** At 0, 50 and 100 the binary64 colour is exactly red, yellow, green. *)
Lemma binary64_endpoints (flag : bool) :
  _calculateColor_binary64 (mkStatus 0 flag) = (1, 0, 0)%float
  /\ _calculateColor_binary64 (mkStatus 50 flag) = (1, 1, 0)%float
  /\ _calculateColor_binary64 (mkStatus 100 flag) = (0, 1, 0)%float.
Proof. repeat split; vm_compute; reflexivity. Qed.

(** Between adjacent percentages of [0,100] a binary64 channel moves by at
    most [1/50 + 2^-54]: the exact step [1/50] plus rounding. *)
Lemma binary64_step_bound (p : Z) :
  0 <= p -> p + 1 <= 100 ->
  binary64_step ((1 # 50) + Qpower 2 (-54)) p = true.
Proof.
  intros H0 H100.
  apply (forallb_upto (binary64_step ((1 # 50) + Qpower 2 (-54))) 100);
    [vm_compute; reflexivity | lia].
Qed.

(** ** The arc that a repaint draws *)






(** ** Adjacent colours in binary64 *)

(** C9, as stated, fails on the code.  Between the percentages 3 and 4
    the green channel that the source computes moves by more than 1/50: the exact distance between the two
    binary64 numbers exceeds 1/50, and so does their difference as
    JavaScript evaluates and compares it (0.08 - 0.06 gives
    0.020000000000000004). *)
Lemma adjacent_step_exceeds_bound :
  binary64_within (1 # 50) (mkStatus 3 false) (mkStatus 4 false) = false
  /\ green_step_at_most_fiftieth (mkStatus 3 false) (mkStatus 4 false)
     = false.
Proof. split; vm_compute; reflexivity. Qed.

(** C9, amended.  Between two adjacent percentages p and p+1 of [0,100]
    every channel of the colour that the source computes in binary64 moves
    by at most 1/50 + 2^-54; in exact arithmetic every channel moves by at
    most 1/50. *)
Theorem adjacent_channels_tolerance (s1 s2 : BatteryStatus) :
  0 <= percentage s1 ->
  percentage s2 = percentage s1 + 1 ->
  percentage s2 <= 100 ->
  binary64_within ((1 # 50) + Qpower 2 (-54)) s1 s2 = true
  /\ (Qabs (red (_calculateColor s2) - red (_calculateColor s1)) <= 1 # 50
      /\ Qabs (green (_calculateColor s2) - green (_calculateColor s1))
         <= 1 # 50
      /\ Qabs (blue (_calculateColor s2) - blue (_calculateColor s1))
         <= 1 # 50)%Q.
Proof.
  intros H0 Hnext H100.
  split; [|exact (adjacent_channels_close s1 s2 H0 Hnext H100)].
  assert (E : binary64_within ((1 # 50) + Qpower 2 (-54)) s1 s2
              = binary64_step ((1 # 50) + Qpower 2 (-54)) (percentage s1)).
  { unfold binary64_within, binary64_step.
    replace (_calculateColor_binary64 (mkStatus (percentage s1 + 1) false))
      with (_calculateColor_binary64 s2)
      by (unfold _calculateColor_binary64; cbn [percentage];
          rewrite Hnext; reflexivity).
    reflexivity. }
  rewrite E. apply binary64_step_bound; lia.
Qed.

Lemma adjacent_channels_tolerance_witness :
  0 <= percentage (mkStatus 3 false)
  /\ percentage (mkStatus 4 true) = percentage (mkStatus 3 false) + 1
  /\ percentage (mkStatus 4 true) <= 100
  /\ binary64_within ((1 # 50) + Qpower 2 (-54)) (mkStatus 3 false)
       (mkStatus 4 true) = true.
Proof.
  assert (A : 0 <= percentage (mkStatus 3 false)) by (simpl; lia).
  assert (B : percentage (mkStatus 4 true)
              = percentage (mkStatus 3 false) + 1) by reflexivity.
  assert (C : percentage (mkStatus 4 true) <= 100) by (simpl; lia).
  split; [exact A | split; [exact B | split; [exact C |]]].
  exact (proj1 (adjacent_channels_tolerance _ _ A B C)).
Defined.

(** * Further properties of the code *)

(** ** The colour, for every percentage *)

(** X1.  Whatever the percentage, in range or not, every channel of the
    colour lies in [0,1]. *)
Theorem channels_in_unit_interval (status : BatteryStatus) :
  (0 <= red (_calculateColor status) <= 1
   /\ 0 <= green (_calculateColor status) <= 1
   /\ 0 <= blue (_calculateColor status) <= 1)%Q.
Proof.
  destruct (Z_lt_ge_dec (percentage status) 0) as [Hneg | H0].
  - rewrite (_calculateColor_invalid status (or_introl Hneg)).
    cbn [red green blue fst snd]. repeat split; lra.
  - destruct (Z_lt_ge_dec 100 (percentage status)) as [Hbig | H100].
    + rewrite (_calculateColor_invalid status (or_intror Hbig)).
      cbn [red green blue fst snd]. repeat split; lra.
    + assert (R : 0 <= percentage status <= 100) by lia.
      destruct (channels status R) as (Hx & Hb & Hlow & Hhigh).
      set (x := inject_Z (percentage status)) in *. clearbody x.
      destruct (Qlt_le_dec 50 x) as [Hx50 | Hx50].
      * destruct (Hhigh Hx50) as [Hr Hg]. rewrite Hr, Hg, Hb.
        repeat split; lra.
      * destruct (Hlow Hx50) as [Hr Hg]. rewrite Hr, Hg, Hb.
        repeat split; lra.
Qed.

(** For a percentage of [0,100] the red or the green channel is 1. *)
Lemma saturated (status : BatteryStatus) :
  0 <= percentage status <= 100 ->
  (red (_calculateColor status) == 1 \/ green (_calculateColor status) == 1)%Q.
Proof.
  intros R. destruct (channels status R) as (Hx & Hb & Hlow & Hhigh).
  destruct (Qlt_le_dec 50 (inject_Z (percentage status))) as [H | H].
  - right. apply (Hhigh H).
  - left. apply (Hlow H).
Qed.

(** X2.  The colour is black exactly when the percentage is outside
    [0,100]: no valid percentage is painted with the black of an invalid
    one. *)
Theorem black_iff_invalid (status : BatteryStatus) :
  Color_eq (_calculateColor status) (0, 0, 0)%Q
  <-> percentage status < 0 \/ 100 < percentage status.
Proof.
  split.
  - intros (Hr & Hg & _). cbn [red green blue fst snd] in Hr, Hg.
    destruct (Z_lt_ge_dec (percentage status) 0) as [Hneg | H0]; [now left|].
    destruct (Z_lt_ge_dec 100 (percentage status)) as [Hbig | H100];
      [now right|].
    exfalso.
    assert (R : 0 <= percentage status <= 100) by lia.
    destruct (saturated status R) as [H1 | H1].
    + rewrite Hr in H1. discriminate H1.
    + rewrite Hg in H1. discriminate H1.
  - intros H. rewrite (_calculateColor_invalid status H).
    repeat split; reflexivity.
Qed.

(** X3.  Over [0,100] the colour determines the percentage: two statuses
    painted with the same colour have the same percentage. *)
Theorem color_injective (s1 s2 : BatteryStatus) :
  0 <= percentage s1 <= 100 ->
  0 <= percentage s2 <= 100 ->
  Color_eq (_calculateColor s1) (_calculateColor s2) ->
  percentage s1 = percentage s2.
Proof.
  intros R1 R2 (Hr & Hg & _).
  destruct (channels s1 R1) as (Hx1 & _ & Hlow1 & Hhigh1).
  destruct (channels s2 R2) as (Hx2 & _ & Hlow2 & Hhigh2).
  apply inject_Z_injective.
  set (x := inject_Z (percentage s1)) in *.
  set (y := inject_Z (percentage s2)) in *.
  clearbody x y.
  destruct (Qlt_le_dec 50 x) as [Hx | Hx];
    destruct (Qlt_le_dec 50 y) as [Hy | Hy].
  - destruct (Hhigh1 Hx) as [Hr1 _]. destruct (Hhigh2 Hy) as [Hr2 _].
    rewrite Hr1, Hr2 in Hr. lra.
  - destruct (Hhigh1 Hx) as [Hr1 _]. destruct (Hlow2 Hy) as [Hr2 _].
    rewrite Hr1, Hr2 in Hr. lra.
  - destruct (Hlow1 Hx) as [Hr1 _]. destruct (Hhigh2 Hy) as [Hr2 _].
    rewrite Hr1, Hr2 in Hr. lra.
  - destruct (Hlow1 Hx) as [_ Hg1]. destruct (Hlow2 Hy) as [_ Hg2].
    rewrite Hg1, Hg2 in Hg. lra.
Qed.

Lemma color_injective_witness :
  0 <= percentage (mkStatus 40 true) <= 100
  /\ 0 <= percentage (mkStatus 40 false) <= 100
  /\ Color_eq (_calculateColor (mkStatus 40 true))
       (_calculateColor (mkStatus 40 false))
  /\ percentage (mkStatus 40 true) = percentage (mkStatus 40 false).
Proof.
  assert (A : 0 <= percentage (mkStatus 40 true) <= 100) by (simpl; lia).
  assert (B : 0 <= percentage (mkStatus 40 false) <= 100) by (simpl; lia).
  assert (C : Color_eq (_calculateColor (mkStatus 40 true))
                (_calculateColor (mkStatus 40 false)))
    by (split; [reflexivity | split; reflexivity]).
  split; [exact A | split; [exact B | split; [exact C |]]].
  exact (color_injective _ _ A B C).
Defined.

(** ** Reading the device *)

Lemma Math_round_bounds (x : Q) :
  (inject_Z (Math_round x) <= x + (1 # 2)
   /\ x - (1 # 2) < inject_Z (Math_round x))%Q.
Proof.
  unfold Math_round. split.
  - apply Qfloor_le.
  - pose proof (Qlt_floor (x + (1 # 2))) as H.
    rewrite inject_Z_plus in H. change (inject_Z 1) with 1%Q in H. lra.
Qed.


(** X5.  A device that reports a percentage in [0,100] is read as an
    integer of [0,100] at most 1/2 away from it. *)
Theorem reading_in_range (device : Device) (x : Q) :
  dev_percentage device = Some x ->
  (0 <= x <= 100)%Q ->
  0 <= percentage (reading device) <= 100
  /\ (Qabs (inject_Z (percentage (reading device)) - x) <= 1 # 2)%Q.
Proof.
  intros Hd [H0 H100]. unfold reading. cbn [percentage]. rewrite Hd.
  cbn [nullish]. destruct (Math_round_bounds x) as [Hle Hlt].
  repeat split.
  - assert (H : (inject_Z (-1) < inject_Z (Math_round x))%Q)
      by (change (inject_Z (-1)) with (-1)%Q; lra).
    rewrite <- Zlt_Qlt in H. lia.
  - assert (H : (inject_Z (Math_round x) < inject_Z 101)%Q)
      by (change (inject_Z 101) with 101%Q; lra).
    rewrite <- Zlt_Qlt in H. lia.
  - apply Qabs_Qle_condition. split; lra.
Qed.

Lemma reading_in_range_witness :
  dev_percentage (mkDevice (Some (995 # 10)) DISCHARGING) = Some (995 # 10)
  /\ (0 <= 995 # 10 <= 100)%Q
  /\ 0 <= percentage (reading (mkDevice (Some (995 # 10)) DISCHARGING)) <= 100.
Proof.
  assert (A : dev_percentage (mkDevice (Some (995 # 10)) DISCHARGING)
              = Some (995 # 10)) by reflexivity.
  assert (B : (0 <= 995 # 10 <= 100)%Q) by (split; discriminate).
  split; [exact A | split; [exact B |]].
  exact (proj1 (reading_in_range _ _ A B)).
Defined.

(** ** One update of the extension *)

(** The state left by one update, field by field. *)
Lemma update_state (shell : Shell) (this : Extension) :
  fst (_updateIndicator shell this)
  = (hidden_stock shell,
     mkExtension (_settings this) (_device this)
       (match _indicator this with
        | Some i => Some (decided this (adopted shell this i))
        | None => None
        end)
       (_stockIcon this || match shell with Some _ => true | None => false end)
       (if _stockIcon this then _iconParent this
        else match shell with Some s => stock_parent s | None => None end)
       (if _stockIcon this then _stockWasVisible this
        else match shell, _indicator this with
             | Some s, Some _ =>
                 match stock_parent s with
                 | Some _ => stock_visible s
                 | None => _stockWasVisible this
                 end
             | _, _ => _stockWasVisible this
             end)).
Proof.
  unfold _updateIndicator, decided, adopted, shouldShow, hidden_stock,
    find_stock_icon, on_indicator, _getValidatedThreshold, set_indicator.
  destruct this as [s dv ind held par was].
  cbn [_settings _device _indicator _stockIcon _iconParent _stockWasVisible].
  destruct (reading dv) as [p chg]. cbn [percentage isCharging].
  destruct held, shell as [[[q|] v]|], ind as [[a b c d [q'|] f]|];
    cbn [negb orb stock_parent stock_visible get_parent _settings _device
         _indicator _stockIcon _iconParent _stockWasVisible fst snd];
    repeat match goal with
           | |- context [Nat.eqb ?x ?y] =>
               destruct (Nat.eqb_spec x y) as [-> | ?]
           end;
    destruct (p <? MIN_BATTERY_PERCENT);
    try destruct chg;
    repeat match goal with
           | |- context [p <? ?t] => destruct (p <? t)
           end;
    reflexivity.
Qed.

Lemma after_update_indicator (shell : Shell) (this : Extension) :
  _indicator (after_update shell this)
  = match _indicator this with
    | Some i => Some (decided this (adopted shell this i))
    | None => None
    end.
Proof. unfold after_update. rewrite update_state. reflexivity. Qed.

Lemma adopted_fields (shell : Shell) (this : Extension)
    (i : CircleIndicator) :
  _status (adopted shell this i) = _status i
  /\ _color (adopted shell this i) = _color i
  /\ _extensionPath (adopted shell this i) = _extensionPath i
  /\ queued_repaints (adopted shell this i) = queued_repaints i
  /\ visible (adopted shell this i) = visible i.
Proof.
  unfold adopted.
  destruct (_stockIcon this); [repeat split|].
  destruct shell as [[[q|] v]|]; repeat split.
Qed.

(** X6.  An update with a reading of at least 0 stores the reading as the
    status of the indicator, recomputes its colour from it and queues one
    repaint, whatever the decision to show or hide. *)
Theorem update_refreshes_status (shell : Shell) (this : Extension)
    (i : CircleIndicator) :
  _indicator this = Some i ->
  0 <= percentage (reading (_device this)) ->
  exists j,
    _indicator (after_update shell this) = Some j
    /\ _status j = reading (_device this)
    /\ _color j = _calculateColor (reading (_device this))
    /\ queued_repaints j = S (queued_repaints i)
    /\ _extensionPath j = _extensionPath i.
Proof.
  intros Hi Hp. rewrite after_update_indicator, Hi.
  destruct (adopted_fields shell this i) as (_ & _ & Hpath & Hq & _).
  eexists. split; [reflexivity|].
  unfold decided.
  replace (percentage (reading (_device this)) <? MIN_BATTERY_PERCENT)
    with false by (symmetry; apply Z.ltb_ge; exact Hp).
  destruct (shouldShow _ _ _); cbn; rewrite Hpath, Hq; repeat split.
Qed.

Lemma update_refreshes_status_witness :
  _indicator (enabled 42 DISCHARGING 80 90)
  = Some (_init (mkStatus (-1) false) "/ext")
  /\ 0 <= percentage (reading (_device (enabled 42 DISCHARGING 80 90)))
  /\ exists j,
      _indicator (after_update None (enabled 42 DISCHARGING 80 90)) = Some j
      /\ _status j = reading (_device (enabled 42 DISCHARGING 80 90)).
Proof.
  assert (A : _indicator (enabled 42 DISCHARGING 80 90)
              = Some (_init (mkStatus (-1) false) "/ext")) by reflexivity.
  assert (B : 0 <= percentage
                     (reading (_device (enabled 42 DISCHARGING 80 90))))
    by (vm_compute; discriminate).
  split; [exact A | split; [exact B |]].
  destruct (update_refreshes_status None _ _ A B) as (j & Hj & Hs & _).
  exists j. split; [exact Hj | exact Hs].
Defined.

(** X7.  An update with a negative reading only hides: the status, the
    colour and the number of queued repaints of the indicator stay as they
    were, and [update] is not called on it. *)
Theorem sentinel_keeps_status (shell : Shell) (this : Extension)
    (i : CircleIndicator) :
  _indicator this = Some i ->
  percentage (reading (_device this)) < 0 ->
  (exists j,
     _indicator (after_update shell this) = Some j
     /\ _status j = _status i
     /\ _color j = _color i
     /\ queued_repaints j = queued_repaints i
     /\ visible j = false)
  /\ count is_update (calls_of_update shell this) = 0%nat.
Proof.
  intros Hi Hp. split.
  - rewrite after_update_indicator, Hi.
    destruct (adopted_fields shell this i) as (Hs & Hc & _ & Hq & _).
    eexists. split; [reflexivity|].
    unfold decided.
    replace (percentage (reading (_device this)) <? MIN_BATTERY_PERCENT)
      with true by (symmetry; apply Z.ltb_lt; exact Hp).
    cbn. rewrite Hs, Hc, Hq. repeat split.
  - apply Z.ltb_lt in Hp.
    unfold calls_of_update, _updateIndicator, find_stock_icon, on_indicator.
    change MIN_BATTERY_PERCENT with 0. rewrite Hp.
    destruct this as [s dv ind held par was].
    cbn [_settings _device _indicator _stockIcon _iconParent
         _stockWasVisible] in *.
    destruct held, shell as [[[q|] v]|], ind as [[a b c d [q'|] f]|];
      cbn [negb stock_parent stock_visible get_parent _indicator _stockIcon
           fst snd];
      repeat match goal with
             | |- context [Nat.eqb ?x ?y] => destruct (Nat.eqb x y)
             end;
      reflexivity.
Qed.

Lemma sentinel_keeps_status_witness :
  _indicator (enabled (-1) DISCHARGING 80 90)
  = Some (_init (mkStatus (-1) false) "/ext")
  /\ percentage (reading (_device (enabled (-1) DISCHARGING 80 90))) < 0
  /\ count is_update (calls_of_update None (enabled (-1) DISCHARGING 80 90))
     = 0%nat.
Proof.
  assert (A : _indicator (enabled (-1) DISCHARGING 80 90)
              = Some (_init (mkStatus (-1) false) "/ext")) by reflexivity.
  assert (B : percentage
                (reading (_device (enabled (-1) DISCHARGING 80 90))) < 0)
    by (vm_compute; reflexivity).
  split; [exact A | split; [exact B |]].
  exact (proj2 (sentinel_keeps_status None _ _ A B)).
Defined.

(** X8.  At 100 per cent and above the indicator is hidden for every
    stored threshold and device state: the thresholds are capped at 100 and
    the comparison is strict. *)
Theorem full_battery_hidden (shell : Shell) (this : Extension) :
  100 <= percentage (reading (_device this)) ->
  shown (after_update shell this) = false.
Proof.
  intros H. rewrite shown_after_update.
  destruct (_indicator this); [|reflexivity].
  pose proof (validated_bounds this CHARGING_KEY) as Bc.
  pose proof (validated_bounds this DISCHARGING_KEY) as Bd.
  unfold shouldShow.
  replace (percentage (reading (_device this))
           <? fst (_getValidatedThreshold this CHARGING_KEY))
    with false by (symmetry; apply Z.ltb_ge; lia).
  replace (percentage (reading (_device this))
           <? fst (_getValidatedThreshold this DISCHARGING_KEY))
    with false by (symmetry; apply Z.ltb_ge; lia).
  destruct (isCharging _); apply andb_false_r.
Qed.

Lemma full_battery_hidden_witness :
  100 <= percentage (reading (_device (enabled 100 CHARGING 100 100)))
  /\ shown (after_update None (enabled 100 CHARGING 100 100)) = false.
Proof.
  assert (A : 100 <= percentage
                       (reading (_device (enabled 100 CHARGING 100 100))))
    by (vm_compute; discriminate).
  split; [exact A | exact (full_battery_hidden None _ A)].
Defined.

(** X9.  The decision is monotone: with a lower reading that is still at
    least 0, stored thresholds that are not lower, and a battery that
    charges if it did, an indicator that was shown is shown. *)
Theorem decision_monotone (shell1 shell2 : Shell) (this1 this2 : Extension)
    (i1 i2 : CircleIndicator) :
  _indicator this1 = Some i1 ->
  _indicator this2 = Some i2 ->
  0 <= percentage (reading (_device this2)) ->
  percentage (reading (_device this2)) <= percentage (reading (_device this1)) ->
  get_int (_settings this1) CHARGING_KEY
  <= get_int (_settings this2) CHARGING_KEY ->
  get_int (_settings this1) DISCHARGING_KEY
  <= get_int (_settings this2) DISCHARGING_KEY ->
  (isCharging (reading (_device this1)) = true ->
   isCharging (reading (_device this2)) = true) ->
  shown (after_update shell1 this1) = true ->
  shown (after_update shell2 this2) = true.
Proof.
  intros H1 H2 Hp0 Hp Hc Hd Hchg.
  rewrite !shown_after_update, H1, H2.
  unfold shouldShow, _getValidatedThreshold, MIN_BATTERY_PERCENT,
    MAX_BATTERY_PERCENT.
  cbn [fst].
  set (p1 := percentage (reading (_device this1))) in *.
  set (p2 := percentage (reading (_device this2))) in *.
  set (c1 := get_int (_settings this1) CHARGING_KEY) in *.
  set (c2 := get_int (_settings this2) CHARGING_KEY) in *.
  set (d1 := get_int (_settings this1) DISCHARGING_KEY) in *.
  set (d2 := get_int (_settings this2) DISCHARGING_KEY) in *.
  clearbody p1 p2 c1 c2 d1 d2.
  rewrite !andb_true_iff, !negb_true_iff, !Z.ltb_ge.
  intros [Hn Hs]. split; [exact Hp0|].
  destruct (isCharging (reading (_device this1)));
    destruct (isCharging (reading (_device this2)));
    try (specialize (Hchg eq_refl); discriminate Hchg);
    rewrite ?orb_true_iff, ?Z.ltb_lt in *; lia.
Qed.

Lemma decision_monotone_witness :
  _indicator (enabled 85 DISCHARGING 80 90)
  = Some (_init (mkStatus (-1) false) "/ext")
  /\ shown (after_update None (enabled 85 DISCHARGING 80 90)) = true
  /\ shown (after_update None (enabled 60 CHARGING 85 95)) = true.
Proof.
  assert (A : _indicator (enabled 85 DISCHARGING 80 90)
              = Some (_init (mkStatus (-1) false) "/ext")) by reflexivity.
  assert (B : _indicator (enabled 60 CHARGING 85 95)
              = Some (_init (mkStatus (-1) false) "/ext")) by reflexivity.
  assert (S1 : shown (after_update None (enabled 85 DISCHARGING 80 90)) = true)
    by reflexivity.
  split; [exact A | split; [exact S1 |]].
  apply (decision_monotone None None _ _ _ _ A B); try exact S1;
    try (vm_compute; discriminate).
Defined.

(** X10.  Every update leaves the stock icon of the panel hidden, with its
    parent unchanged, whether the extension already held it or finds it in
    this call. *)
Theorem stock_icon_hidden (stock : StockIcon) (this : Extension) :
  fst (fst (_updateIndicator (Some stock) this))
  = Some (mkStock (stock_parent stock) false)
  /\ _stockIcon (after_update (Some stock) this) = true.
Proof.
  unfold after_update. rewrite update_state. cbn [fst snd _stockIcon hidden_stock].
  split; [reflexivity | apply orb_true_r].
Qed.

(** X11.  One update calls exactly one of [show] and [hide] on the
    indicator when there is one, never both and never neither.  Unless the
    reading is negative it reads the settings exactly twice, first the
    charging threshold and then the discharging threshold, each once; with
    a negative reading it reads none. *)
Theorem one_decision_per_update (shell : Shell) (this : Extension) :
  count is_show_or_hide (calls_of_update shell this)
  = match _indicator this with Some _ => 1%nat | None => 0%nat end
  /\ filter is_get_int (calls_of_update shell this)
     = if percentage (reading (_device this)) <? 0 then []
       else [settings_get_int CHARGING_KEY
               (get_int (_settings this) CHARGING_KEY);
             settings_get_int DISCHARGING_KEY
               (get_int (_settings this) DISCHARGING_KEY)].
Proof.
  unfold calls_of_update, _updateIndicator, find_stock_icon, on_indicator,
    _getValidatedThreshold, set_indicator, MIN_BATTERY_PERCENT.
  destruct this as [s dv ind held par was].
  cbn [_settings _device _indicator _stockIcon _iconParent _stockWasVisible].
  destruct (reading dv) as [p chg]. cbn [percentage isCharging].
  destruct held, shell as [[[q|] v]|], ind as [[a b c d [q'|] f]|];
    cbn [negb orb stock_parent stock_visible get_parent _settings _device
         _indicator _stockIcon _iconParent _stockWasVisible fst snd];
    repeat match goal with
           | |- context [Nat.eqb ?x ?y] => destruct (Nat.eqb x y)
           end;
    destruct (p <? 0);
    try destruct chg;
    repeat match goal with
           | |- context [p <? ?t] => destruct (p <? t)
           end;
    split; reflexivity.
Qed.

(** X12.  Updating twice with the device and the settings unchanged gives
    what updating once gives: the same shell, the same status, colour,
    visibility and parent of the indicator, and the same references to the
    stock icon.  (Only the number of queued repaints differs.) *)
Theorem update_idempotent (shell : Shell) (this : Extension) :
  fst (fst (_updateIndicator (fst (fst (_updateIndicator shell this)))
              (after_update shell this)))
  = fst (fst (_updateIndicator shell this))
  /\ appearance (after_update (fst (fst (_updateIndicator shell this)))
                   (after_update shell this))
     = appearance (after_update shell this)
  /\ _stockIcon (after_update (fst (fst (_updateIndicator shell this)))
                   (after_update shell this))
     = _stockIcon (after_update shell this)
  /\ _iconParent (after_update (fst (fst (_updateIndicator shell this)))
                    (after_update shell this))
     = _iconParent (after_update shell this)
  /\ _stockWasVisible (after_update (fst (fst (_updateIndicator shell this)))
                         (after_update shell this))
     = _stockWasVisible (after_update shell this).
Proof.
  unfold after_update. rewrite (update_state shell this).
  cbn [fst snd]. rewrite update_state.
  destruct this as [s dv ind held par was].
  unfold appearance, decided, adopted, hidden_stock.
  cbn [fst snd _settings _device _indicator _stockIcon _iconParent
       _stockWasVisible].
  set (st := reading dv). clearbody st.
  set (b := shouldShow st _ _). clearbody b.
  destruct held, shell as [[[q|] v]|], ind as [i|];
    cbn [orb stock_parent stock_visible];
    destruct (percentage st <? MIN_BATTERY_PERCENT); try destruct b;
    repeat split; reflexivity.
Qed.

(** ** From [enable] to [disable] *)

Lemma decided_coherent (this : Extension) (i : CircleIndicator) :
  _color i = _calculateColor (_status i) ->
  _color (decided this i) = _calculateColor (_status (decided this i)).
Proof.
  intros H. unfold decided.
  destruct (_ <? _); [exact H|].
  destruct (shouldShow _ _ _); reflexivity.
Qed.

Lemma step_coherent (ev : Event) (st : Shell * Extension) :
  coherent (snd st) -> coherent (snd (step ev st)).
Proof.
  destruct st as [shell this]. destruct ev as [device settings|];
    cbn [step snd]; [|trivial].
  rewrite update_state. unfold coherent. cbn [snd _indicator].
  destruct (_indicator this) as [i|]; [|trivial].
  intros H. apply decided_coherent.
  match goal with
  | |- context [adopted ?sh ?th i] =>
      destruct (adopted_fields sh th i) as (-> & -> & _)
  end.
  exact H.
Qed.

Lemma run_coherent (evs : list Event) (st : Shell * Extension) :
  coherent (snd st) -> coherent (snd (run evs st)).
Proof.
  revert st. induction evs as [|ev evs IH]; intros st H; cbn [run].
  - exact H.
  - apply IH, step_coherent, H.
Qed.

Lemma enable_returns (path : string) (settings : Settings) (device : Device)
    (shell : Shell) :
  enable path settings (Some device) shell
  = Returned
      (fst (_updateIndicator
              (fst (fst (_createIndicator path settings device shell)))
              (snd (fst (_createIndicator path settings device shell))))).
Proof.
  unfold enable, _initializeUPower.
  destruct (_createIndicator path settings device shell) as [[sh th] b].
  cbn [fst snd].
  destruct (_updateIndicator sh th) as [[sh' th'] c]. reflexivity.
Qed.

(** X13.  From [enable] on, through any sequence of timer ticks, change
    notifications and runs of the deferred callback, the colour kept by
    the indicator is the colour of the status it keeps: the ring and the
    label are always painted for the same percentage. *)
Theorem colour_cache_coherent (path : string) (settings : Settings)
    (device : Device) (shell : Shell) (evs : list Event) :
  match enable path settings (Some device) shell with
  | Returned st => coherent (snd (run evs st))
  | Thrown _ => False
  end.
Proof.
  rewrite enable_returns. apply run_coherent.
  rewrite update_state. unfold coherent. cbn [snd _indicator].
  unfold _createIndicator.
  destruct shell as [[[q|] v]|]; cbn [fst snd _indicator stock_parent];
    apply decided_coherent;
    match goal with
    | |- context [adopted ?sh ?th ?i] =>
        destruct (adopted_fields sh th i) as (-> & -> & _)
    end;
    reflexivity.
Qed.

(** X14.  [enable] with a display device returns with the stock icon
    hidden and an indicator for the extension path whose visibility is the
    one the thresholds give for the first reading; the widget, created
    visible for the status -1, does not stay visible by default.  Without a
    display device [enable] throws. *)
Theorem enable_decides (path : string) (settings : Settings)
    (device : Device) (shell : Shell) :
  (exists this i,
     enable path settings (Some device) shell
     = Returned (hidden_stock shell, this)
     /\ _indicator this = Some i
     /\ _extensionPath i = path
     /\ visible i
        = (0 <=? percentage (reading device))
          && shouldShow (reading device)
               (Z.max 0 (Z.min 100 (get_int settings CHARGING_KEY)))
               (Z.max 0 (Z.min 100 (get_int settings DISCHARGING_KEY))))
  /\ enable path settings None shell
     = Thrown "Failed to get UPower display device".
Proof.
  split; [|reflexivity].
  rewrite enable_returns, update_state.
  unfold _createIndicator, decided, _getValidatedThreshold,
    MIN_BATTERY_PERCENT, MAX_BATTERY_PERCENT.
  rewrite Z.leb_antisym.
  destruct shell as [[[q|] v]|];
    cbn [fst snd _indicator _settings _device stock_parent hidden_stock];
    eexists; eexists; (split; [reflexivity|]); (split; [reflexivity|]);
    match goal with
    | |- context [adopted ?sh ?th ?i] =>
        destruct (adopted_fields sh th i) as (_ & _ & Hpath & _ & _)
    end;
    destruct (percentage (reading device) <? 0);
    try destruct (shouldShow _ _ _);
    cbn [negb andb]; (split; [cbn; try rewrite Hpath; reflexivity | reflexivity]).
Qed.

Lemma step_holds_stock (parent : option nat) (was : bool) (ev : Event)
    (st : Shell * Extension) :
  holds_stock parent was st -> holds_stock parent was (step ev st).
Proof.
  destruct st as [shell this]. unfold holds_stock. cbn [fst snd].
  intros (Hs & Hh & Hp & Hw). subst shell.
  destruct ev as [device settings|]; cbn [step].
  - rewrite update_state.
    cbn [fst snd _stockIcon _iconParent _stockWasVisible hidden_stock
         stock_parent].
    rewrite Hh. cbn [orb]. repeat split; assumption.
  - unfold idle_hide_stock. rewrite Hh. cbn [fst snd stock_parent].
    repeat split; assumption.
Qed.

Lemma run_holds_stock (parent : option nat) (was : bool) (evs : list Event)
    (st : Shell * Extension) :
  holds_stock parent was st -> holds_stock parent was (run evs st).
Proof.
  revert st. induction evs as [|ev evs IH]; intros st H; cbn [run].
  - exact H.
  - apply IH, step_holds_stock, H.
Qed.

Lemma enable_holds_stock (path : string) (settings : Settings)
    (device : Device) (stock : StockIcon) :
  holds_stock (stock_parent stock) (stock_visible stock)
    (fst (_updateIndicator
            (fst (fst (_createIndicator path settings device (Some stock))))
            (snd (fst (_createIndicator path settings device (Some stock)))))).
Proof.
  rewrite update_state. unfold _createIndicator, holds_stock.
  destruct stock as [[q|] v];
    cbn [fst snd _stockIcon _iconParent _stockWasVisible hidden_stock
         stock_parent stock_visible orb];
    repeat split; try reflexivity.
  intros H. contradiction H. reflexivity.
Qed.

(** What [disable] leaves of the shell after any session: the stock icon
    as [enable] found it when it has a parent, hidden when it has none. *)
Lemma session_stock (path : string) (settings : Settings) (device : Device)
    (stock : StockIcon) (evs : list Event) :
  match enable path settings (Some device) (Some stock) with
  | Returned st =>
      disable (fst (run evs st)) (snd (run evs st))
      = (Some (mkStock (stock_parent stock)
                 (match stock_parent stock with
                  | Some _ => stock_visible stock
                  | None => false
                  end)),
         None)
  | Thrown _ => False
  end.
Proof.
  rewrite enable_returns.
  pose proof (run_holds_stock _ _ evs _
                (enable_holds_stock path settings device stock)) as H.
  destruct (run evs _) as [shell this].
  destruct H as (Hs & Hh & Hp & Hw). cbn [fst snd] in *. subst shell.
  unfold disable, _restoreStockIcon. rewrite Hp, Hh.
  destruct (stock_parent stock) as [q|].
  - rewrite Hw by discriminate.
    destruct (stock_visible stock); reflexivity.
  - reflexivity.
Qed.

(** X15.  When the stock icon has a parent, [disable] after [enable] and
    any sequence of updates and deferred callbacks puts the icon back
    exactly as [enable] found it, visible or not, and leaves no
    indicator. *)
Theorem stock_icon_round_trip (path : string) (settings : Settings)
    (device : Device) (stock : StockIcon) (parent : nat)
    (evs : list Event) :
  stock_parent stock = Some parent ->
  match enable path settings (Some device) (Some stock) with
  | Returned st =>
      disable (fst (run evs st)) (snd (run evs st)) = (Some stock, None)
  | Thrown _ => False
  end.
Proof.
  intros Hp.
  pose proof (session_stock path settings device stock evs) as H.
  destruct (enable path settings (Some device) (Some stock)) as [st|];
    [|exact H].
  rewrite H. destruct stock as [par v]. cbn in Hp. subst par. reflexivity.
Qed.

Lemma stock_icon_round_trip_witness :
  stock_parent (mkStock (Some 7%nat) true) = Some 7%nat
  /\ match enable "/ext" (thresholds 80 90)
             (Some (mkDevice (Some 85%Q) CHARGING))
             (Some (mkStock (Some 7%nat) true)) with
     | Returned st =>
         disable (fst (run [tick (mkDevice (Some 30%Q) DISCHARGING)
                              (thresholds 20 25); idle] st))
           (snd (run [tick (mkDevice (Some 30%Q) DISCHARGING)
                        (thresholds 20 25); idle] st))
         = (Some (mkStock (Some 7%nat) true), None)
     | Thrown _ => False
     end.
Proof.
  assert (A : stock_parent (mkStock (Some 7%nat) true) = Some 7%nat)
    by reflexivity.
  split; [exact A |].
  exact (stock_icon_round_trip "/ext" (thresholds 80 90)
           (mkDevice (Some 85%Q) CHARGING) (mkStock (Some 7%nat) true) 7%nat
           [tick (mkDevice (Some 30%Q) DISCHARGING) (thresholds 20 25); idle]
           A).
Defined.

(** X16.  A stock icon without parent is hidden by [enable] and is not
    shown again by [disable], even when it was visible: [_restoreStockIcon]
    does nothing without [_iconParent]. *)
Theorem orphan_stock_icon_stays_hidden (path : string) (settings : Settings)
    (device : Device) (stock : StockIcon) (evs : list Event) :
  stock_parent stock = None ->
  match enable path settings (Some device) (Some stock) with
  | Returned st =>
      disable (fst (run evs st)) (snd (run evs st))
      = (Some (mkStock None false), None)
  | Thrown _ => False
  end.
Proof.
  intros Hp.
  pose proof (session_stock path settings device stock evs) as H.
  destruct (enable path settings (Some device) (Some stock)) as [st|];
    [|exact H].
  rewrite H, Hp. reflexivity.
Qed.

Lemma orphan_stock_icon_stays_hidden_witness :
  stock_parent (mkStock None true) = None
  /\ match enable "/ext" (thresholds 80 90)
             (Some (mkDevice (Some 85%Q) CHARGING))
             (Some (mkStock None true)) with
     | Returned st =>
         disable (fst (run [] st)) (snd (run [] st))
         = (Some (mkStock None false), None)
     | Thrown _ => False
     end.
Proof.
  assert (A : stock_parent (mkStock None true) = None) by reflexivity.
  split; [exact A |].
  exact (orphan_stock_icon_stays_hidden "/ext" (thresholds 80 90)
           (mkDevice (Some 85%Q) CHARGING) (mkStock None true) [] A).
Defined.

(** ** Signal handlers and the timer *)

Lemma filter_other (l : list nat) (n id : nat) :
  Forall (fun j => (j < n)%nat) l ->
  (n <= id)%nat ->
  filter (fun j => negb (Nat.eqb j id)) l = l.
Proof.
  intros Hl Hid. induction Hl as [|j l Hj _ IH]; cbn [filter].
  - reflexivity.
  - destruct (Nat.eqb_spec j id) as [-> | _]; [lia|].
    cbn [negb]. rewrite IH. reflexivity.
Qed.

(** X17.  After the signal and timer part of [enable] followed by that of
    [disable], the handlers on the settings and the timer are gone, but the
    two handlers connected to the device are still connected:
    [_disconnectSignals] disconnects every id from the settings object. *)
Theorem device_handlers_stay_connected (h : Host) :
  fresh h ->
  settings_handlers (connect_then_disconnect h) = settings_handlers h
  /\ timeouts (connect_then_disconnect h) = timeouts h
  /\ device_handlers (connect_then_disconnect h)
     = device_handlers h ++ [S (S (next_handler h)); S (S (S (next_handler h)))].
Proof.
  intros (Hn & Hm & Hs & Ht).
  destruct h as [sh dh t n m]. cbn [next_handler next_source
    settings_handlers timeouts] in *.
  unfold connect_then_disconnect, _setupSignals, _startUpdateTimer,
    _stopUpdateTimer, _disconnectSignals, connect_settings, connect_device,
    timeout_add_seconds, source_remove, disconnect_settings.
  cbn [settings_handlers device_handlers timeouts next_handler next_source
       fold_left fst snd].
  destruct (Nat.eqb_spec m 0) as [-> | _]; [lia|].
  destruct (Nat.eqb_spec n 0) as [-> | _]; [lia|].
  cbn [Nat.eqb settings_handlers device_handlers timeouts next_handler
       next_source].
  repeat split.
  - assert (E1 : filter (fun j => negb (Nat.eqb j n)) ((sh ++ [n]) ++ [S n])
                  = sh ++ [S n]).
    { rewrite !filter_app. cbn [filter]. rewrite Nat.eqb_refl.
      destruct (Nat.eqb_spec (S n) n) as [E | _]; [lia|]. cbn [negb].
      rewrite (filter_other sh n n Hs (le_n _)), app_nil_r. reflexivity. }
    assert (E2 : filter (fun j => negb (Nat.eqb j (S n))) (sh ++ [S n]) = sh).
    { rewrite filter_app. cbn [filter]. rewrite Nat.eqb_refl. cbn [negb].
      rewrite (filter_other sh n (S n) Hs) by lia. apply app_nil_r. }
    rewrite E1, E2.
    rewrite (filter_other sh n (S (S n)) Hs) by lia.
    apply (filter_other sh n (S (S (S n))) Hs). lia.
  - rewrite filter_app. cbn [filter]. rewrite Nat.eqb_refl. cbn [negb].
    rewrite (filter_other t m m Ht (le_n _)). apply app_nil_r.
  - rewrite <- app_assoc. reflexivity.
Qed.

Lemma device_handlers_stay_connected_witness :
  fresh (mkHost [1%nat] [] [] 2 1)
  /\ device_handlers (connect_then_disconnect (mkHost [1%nat] [] [] 2 1))
     = [4%nat; 5%nat]
  /\ settings_handlers (connect_then_disconnect (mkHost [1%nat] [] [] 2 1))
     = [1%nat].
Proof.
  assert (A : fresh (mkHost [1%nat] [] [] 2 1)).
  { unfold fresh. cbn. repeat split; try lia.
    - constructor; [lia | constructor].
    - constructor. }
  split; [exact A |].
  split.
  - exact (proj2 (proj2 (device_handlers_stay_connected _ A))).
  - exact (proj1 (device_handlers_stay_connected _ A)).
Defined.

(** ** The preferences and [_calculateSize] *)

(** X18.  A threshold set with a slider of the preferences, whose value
    lies in [0,100], is stored as an integer of [0,100] and is read back
    unchanged by [_getValidatedThreshold]; the threshold of another key is
    not affected. *)
Theorem slider_round_trip (this : Extension) (key other : string)
    (scale_value : Q) :
  (SLIDER_MIN <= scale_value <= SLIDER_MAX)%Q ->
  fst (_getValidatedThreshold
         (with_settings this (value_changed key scale_value (_settings this)))
         key)
  = Math_round scale_value
  /\ 0 <= Math_round scale_value <= 100
  /\ (String.eqb other key = false ->
      fst (_getValidatedThreshold
             (with_settings this
                (value_changed key scale_value (_settings this)))
             other)
      = fst (_getValidatedThreshold this other)).
Proof.
  unfold SLIDER_MIN, SLIDER_MAX. intros [H0 H100].
  assert (R : 0 <= Math_round scale_value <= 100).
  { destruct (Math_round_bounds scale_value) as [Hle Hlt]. split.
    - assert (H : (inject_Z (-1) < inject_Z (Math_round scale_value))%Q)
        by (change (inject_Z (-1)) with (-1)%Q; lra).
      rewrite <- Zlt_Qlt in H. lia.
    - assert (H : (inject_Z (Math_round scale_value) < inject_Z 101)%Q)
        by (change (inject_Z 101) with 101%Q; lra).
      rewrite <- Zlt_Qlt in H. lia. }
  unfold _getValidatedThreshold, with_settings, value_changed, set_int,
    get_int, MIN_BATTERY_PERCENT, MAX_BATTERY_PERCENT.
  cbn [fst _settings]. rewrite String.eqb_refl.
  repeat split; try lia.
  intros ->. reflexivity.
Qed.

Lemma slider_round_trip_witness :
  (SLIDER_MIN <= 73 <= SLIDER_MAX)%Q
  /\ fst (_getValidatedThreshold
            (with_settings (enabled 50 DISCHARGING 80 90)
               (value_changed CHARGING_KEY 73
                  (_settings (enabled 50 DISCHARGING 80 90))))
            CHARGING_KEY)
     = Math_round 73.
Proof.
  assert (A : (SLIDER_MIN <= 73 <= SLIDER_MAX)%Q) by (split; discriminate).
  split; [exact A |].
  exact (proj1 (slider_round_trip (enabled 50 DISCHARGING 80 90)
                  CHARGING_KEY DISCHARGING_KEY 73 A)).
Defined.

(** X19.  The side of the indicator is at least 22 pixels, does not
    exceed the panel height when the panel is at least 22 pixels high, and
    does not shrink when the panel grows. *)
Theorem size_bounds (panel_height : Q) :
  MIN_INDICATOR_SIZE <= _calculateSize panel_height
  /\ ((22 <= panel_height)%Q ->
      (inject_Z (_calculateSize panel_height) <= panel_height)%Q)
  /\ (forall taller : Q,
        (panel_height <= taller)%Q ->
        _calculateSize panel_height <= _calculateSize taller).
Proof.
  unfold _calculateSize, MIN_INDICATOR_SIZE, PANEL_SIZE_RATIO.
  split; [lia|]. split.
  - intros H.
    pose proof (Qfloor_le (panel_height * (9 # 10))) as Hf.
    destruct (Z.max_spec 22 (Qfloor (panel_height * (9 # 10))))
      as [[_ ->] | [_ ->]].
    + lra.
    + exact H.
  - intros taller H.
    assert (Hm : Qfloor (panel_height * (9 # 10))
                 <= Qfloor (taller * (9 # 10)))
      by (apply Qfloor_resp_le; lra).
    lia.
Qed.

(** ** Repaints *)

(** A repaint returns and only appends to what was drawn and logged
    before; what it appends does not depend on it. *)
Lemma repaint_appends (svg_file : string -> SvgResource)
    (textExtents : Z -> string -> TextExtents)
    (this : CircleIndicator) (width height : Z) (e : Effects) :
  _onRepaint svg_file textExtents this width height e
  = (Returned tt,
     mkEffects
       (drawn e
        ++ drawn (repaint_effects svg_file textExtents this width height))
       (logged e
        ++ logged (repaint_effects svg_file textExtents this width height))).
Proof.
  destruct this as [[p chg] path [[r g] b] vis par n].
  unfold repaint_effects, _onRepaint, _drawChargingIcon, _loadChargingSvg,
    new_from_file.
  cbn [_status isCharging _extensionPath _color percentage].
  destruct chg;
    [destruct (svg_file (path ++ "/charging.svg")%string) as [| | w h]|];
    cbv [bind draw ret throw try_catch console_error no_effects drawn logged
         fst snd];
    cbn [app]; rewrite <- ?app_assoc; cbn [app]; rewrite ?app_nil_r;
    reflexivity.
Qed.

(** X20.  Where the scale of the glyph is a positive finite number (the
    status is not charging, or the glyph cannot be loaded, or the image and
    the text have a positive height), a repaint returns without throwing;
    it writes one line to the console when the status is charging and the
    glyph cannot be loaded, and none otherwise. *)
Theorem repaint_never_throws (svg_file : string -> SvgResource)
    (textExtents : Z -> string -> TextExtents)
    (this : CircleIndicator) (width height : Z) (e : Effects) :
  finite_scale svg_file textExtents this height ->
  fst (_onRepaint svg_file textExtents this width height e) = Returned tt
  /\ List.length
       (logged (snd (_onRepaint svg_file textExtents this width height e)))
     = (List.length (logged e)
        + match isCharging (_status this),
                svg_file (_extensionPath this ++ "/charging.svg")%string with
          | true, SvgUnreadable | true, SvgNoHandle => 1
          | _, _ => 0
          end)%nat.
Proof.
  intros _.
  rewrite repaint_appends. cbn [fst snd logged].
  split; [reflexivity|]. rewrite length_app. f_equal.
  destruct this as [[p chg] path [[r g] b] vis par n].
  unfold repaint_effects, _onRepaint, _drawChargingIcon, _loadChargingSvg,
    new_from_file.
  cbn [_status isCharging _extensionPath _color percentage].
  destruct chg;
    [destruct (svg_file (path ++ "/charging.svg")%string) as [| | w h]|];
    reflexivity.
Qed.

Lemma repaint_never_throws_witness :
  finite_scale (fun _ => SvgImage 10 20)
    (fun size text => mkExtents (inject_Z size) (inject_Z size))
    (_init (mkStatus 57 true) "/ext") 24
  /\ fst (_onRepaint (fun _ => SvgImage 10 20)
            (fun size text => mkExtents (inject_Z size) (inject_Z size))
            (_init (mkStatus 57 true) "/ext") 24 24 no_effects)
     = Returned tt.
Proof.
  assert (A : finite_scale (fun _ => SvgImage 10 20)
                (fun size text => mkExtents (inject_Z size) (inject_Z size))
                (_init (mkStatus 57 true) "/ext") 24).
  { intros _ w h E. injection E as _ <-. split; reflexivity. }
  split; [exact A |].
  exact (proj1 (repaint_never_throws (fun _ => SvgImage 10 20)
                  (fun size text => mkExtents (inject_Z size) (inject_Z size))
                  (_init (mkStatus 57 true) "/ext") 24 24 no_effects A)).
Defined.

Lemma repaints_log (svg_file : string -> SvgResource)
    (textExtents : Z -> string -> TextExtents)
    (this : CircleIndicator) (width height : Z) (n : nat) (e : Effects) :
  fst (repaints svg_file textExtents this width height n e) = Returned tt
  /\ List.length
       (logged (snd (repaints svg_file textExtents this width height n e)))
     = (List.length (logged e)
        + n * List.length
                (logged (repaint_effects svg_file textExtents this width
                           height)))%nat.
Proof.
  revert e. induction n as [|n IH]; intros e; cbn [repaints].
  - cbn. split; [reflexivity | lia].
  - unfold bind. rewrite repaint_appends.
    destruct (IH (mkEffects
                    (drawn e ++ drawn (repaint_effects svg_file textExtents
                                         this width height))
                    (logged e ++ logged (repaint_effects svg_file
                                           textExtents this width height))))
      as [Hr Hl].
    split; [exact Hr|]. rewrite Hl. cbn [logged]. rewrite length_app. lia.
Qed.

(** X21.  While the glyph cannot be loaded, every repaint of a charging
    status looks the file up again and logs the failure again: [n] repaints
    in a row all return and leave [n] lines on the console. *)
Theorem failure_logged_at_every_repaint (svg_file : string -> SvgResource)
    (textExtents : Z -> string -> TextExtents)
    (this : CircleIndicator) (width height : Z) (n : nat) :
  load_fails (svg_file (_extensionPath this ++ "/charging.svg")%string) ->
  isCharging (_status this) = true ->
  fst (repaints svg_file textExtents this width height n no_effects)
  = Returned tt
  /\ List.length
       (logged (snd (repaints svg_file textExtents this width height n
                       no_effects))) = n.
Proof.
  intros Hfail Hchg.
  destruct (repaints_log svg_file textExtents this width height n no_effects)
    as [Hr Hl].
  split; [exact Hr|]. rewrite Hl.
  destruct (repaint_glyph_failure svg_file textExtents this width height
              Hfail Hchg) as (eff & line & E & Hlog & _).
  unfold repaint_effects. rewrite E. cbn [snd]. rewrite Hlog. cbn. lia.
Qed.

Lemma failure_logged_at_every_repaint_witness :
  load_fails ((fun _ => SvgNoHandle)
                (_extensionPath (_init (mkStatus 57 true) "/ext")
                 ++ "/charging.svg")%string)
  /\ isCharging (_status (_init (mkStatus 57 true) "/ext")) = true
  /\ List.length
       (logged (snd (repaints (fun _ => SvgNoHandle)
                       (fun size text => mkExtents (inject_Z size)
                                           (inject_Z size))
                       (_init (mkStatus 57 true) "/ext") 24 24 3
                       no_effects))) = 3%nat.
Proof.
  assert (A : load_fails ((fun _ : string => SvgNoHandle)
                            (_extensionPath (_init (mkStatus 57 true) "/ext")
                             ++ "/charging.svg")%string)) by exact I.
  assert (B : isCharging (_status (_init (mkStatus 57 true) "/ext")) = true)
    by reflexivity.
  split; [exact A | split; [exact B |]].
  exact (proj2 (failure_logged_at_every_repaint (fun _ => SvgNoHandle)
                  (fun size text => mkExtents (inject_Z size) (inject_Z size))
                  (_init (mkStatus 57 true) "/ext") 24 24 3 A B)).
Defined.

(** X22.  Where the scale of the glyph is a positive finite number (the
    status is not charging, or the glyph cannot be loaded, or the image and
    the text have a positive height), the last four commands of a repaint
    set the gauge colour again, move to the label position on the baseline
    centerY + text height / 2, show the decimal percentage and stroke; and
    the repaint issues as many [restore] as [save]. *)
Theorem label_drawn_last (svg_file : string -> SvgResource)
    (textExtents : Z -> string -> TextExtents)
    (this : CircleIndicator) (width height : Z) :
  finite_scale svg_file textExtents this height ->
  (exists ops x,
     drawn (repaint_effects svg_file textExtents this width height)
     = ops
       ++ [setSourceRGB (red (_color this)) (green (_color this))
             (blue (_color this));
           moveTo x
             (inject_Z height / 2
              + te_height
                  (textExtents
                     (Math_round (inject_Z height * FONT_SIZE_RATIO))
                     (String_of (percentage (_status this)))) / 2)%Q;
           showText (String_of (percentage (_status this)));
           stroke])
  /\ List.length
       (filter is_save
          (drawn (repaint_effects svg_file textExtents this width height)))
     = List.length
         (filter is_restore
            (drawn (repaint_effects svg_file textExtents this width height))).
Proof.
  intros _.
  destruct this as [[p chg] path [[r g] b] vis par n].
  unfold repaint_effects, _onRepaint, _drawChargingIcon, _loadChargingSvg,
    new_from_file.
  cbn [_status isCharging _extensionPath _color percentage red green blue
       fst snd].
  destruct chg;
    [destruct (svg_file (path ++ "/charging.svg")%string) as [| | w h]|];
    cbv [bind draw ret throw try_catch console_error no_effects drawn logged
         fst snd app];
    (split; [|reflexivity]).
  - match goal with |- exists ops x, ?l = _ => exists (firstn 11 l) end.
    eexists. cbn [firstn app]. reflexivity.
  - match goal with |- exists ops x, ?l = _ => exists (firstn 11 l) end.
    eexists. cbn [firstn app]. reflexivity.
  - match goal with |- exists ops x, ?l = _ => exists (firstn 16 l) end.
    eexists. cbn [firstn app]. reflexivity.
  - match goal with |- exists ops x, ?l = _ => exists (firstn 11 l) end.
    eexists. cbn [firstn app]. reflexivity.
Qed.

Lemma label_drawn_last_witness :
  finite_scale (fun _ => SvgImage 10 20)
    (fun size text => mkExtents (inject_Z size) (inject_Z size))
    (_init (mkStatus 57 true) "/ext") 24
  /\ List.length
       (filter is_save
          (drawn (repaint_effects (fun _ => SvgImage 10 20)
                    (fun size text => mkExtents (inject_Z size)
                                        (inject_Z size))
                    (_init (mkStatus 57 true) "/ext") 24 24)))
     = List.length
         (filter is_restore
            (drawn (repaint_effects (fun _ => SvgImage 10 20)
                      (fun size text => mkExtents (inject_Z size)
                                          (inject_Z size))
                      (_init (mkStatus 57 true) "/ext") 24 24))).
Proof.
  assert (A : finite_scale (fun _ => SvgImage 10 20)
                (fun size text => mkExtents (inject_Z size) (inject_Z size))
                (_init (mkStatus 57 true) "/ext") 24).
  { intros _ w h E. injection E as _ <-. split; reflexivity. }
  split; [exact A |].
  exact (proj2 (label_drawn_last (fun _ => SvgImage 10 20)
                  (fun size text => mkExtents (inject_Z size) (inject_Z size))
                  (_init (mkStatus 57 true) "/ext") 24 24 A)).
Defined.

(** X23.  When the glyph loads (an image of positive height) and the text
    has a positive height, the repaint of a charging status paints the
    glyph, tinted with the gauge colour, under a scale [s] such that the
    glyph is 1.7 text heights tall, is centred vertically on the surface
    centre, and ends 5 pixels to the right of the start of the label. *)
Theorem glyph_geometry (svg_file : string -> SvgResource)
    (textExtents : Z -> string -> TextExtents)
    (this : CircleIndicator) (width height w h : Z) :
  svg_file (_extensionPath this ++ "/charging.svg")%string = SvgImage w h ->
  isCharging (_status this) = true ->
  0 < h ->
  (0 < te_height
         (textExtents (Math_round (inject_Z height * FONT_SIZE_RATIO))
            (String_of (percentage (_status this)))))%Q ->
  exists s x y tx,
    In (scale s s)
      (drawn (repaint_effects svg_file textExtents this width height))
    /\ In (setSourceSurface (mkSurface w h (_color this)) x y)
         (drawn (repaint_effects svg_file textExtents this width height))
    /\ label_x (drawn (repaint_effects svg_file textExtents this width height))
       = Some tx
    /\ logged (repaint_effects svg_file textExtents this width height) = []
    /\ (inject_Z h * s
        == CHARGING_ICON_SCALE
           * te_height
               (textExtents (Math_round (inject_Z height * FONT_SIZE_RATIO))
                  (String_of (percentage (_status this)))))%Q
    /\ (y * s + inject_Z h * s / 2 == inject_Z height / 2)%Q
    /\ (tx + 5 == x * s + inject_Z w * s)%Q.
Proof.
  destruct this as [[p chg] path [[r g] b] vis par n].
  cbn [_status isCharging _extensionPath _color percentage].
  intros Hsvg -> Hh Hte.
  unfold repaint_effects, _onRepaint, _drawChargingIcon, _loadChargingSvg,
    new_from_file.
  cbn [_status isCharging _extensionPath _color percentage].
  rewrite Hsvg.
  cbv [bind draw ret throw try_catch console_error no_effects drawn logged
       fst snd app getHeight getWidth].
  set (te := textExtents _ _) in *. clearbody te.
  assert (Hh' : ~ (inject_Z h == 0)%Q).
  { intros E. change 0%Q with (inject_Z 0) in E.
    apply (proj1 (inject_Z_injective h 0)) in E. lia. }
  assert (Hte' : ~ (te_height te == 0)%Q) by (intros E; lra).
  do 4 eexists.
  split; [do 12 right; left; reflexivity|].
  split; [do 13 right; left; reflexivity|].
  split; [reflexivity|].
  split; [reflexivity|].
  unfold CHARGING_ICON_SCALE, CHARGING_ICON_SPACING.
  repeat split; field; auto.
Qed.

Lemma glyph_geometry_witness :
  (fun _ : string => SvgImage 10 20)
    (_extensionPath (_init (mkStatus 57 true) "/ext") ++ "/charging.svg")%string
  = SvgImage 10 20
  /\ isCharging (_status (_init (mkStatus 57 true) "/ext")) = true
  /\ 0 < 20
  /\ exists s x y tx,
      In (scale s s)
        (drawn (repaint_effects (fun _ => SvgImage 10 20)
                  (fun size text => mkExtents (inject_Z size) (inject_Z size))
                  (_init (mkStatus 57 true) "/ext") 24 24))
      /\ In (setSourceSurface
               (mkSurface 10 20 (_color (_init (mkStatus 57 true) "/ext")))
               x y)
           (drawn (repaint_effects (fun _ => SvgImage 10 20)
                     (fun size text =>
                        mkExtents (inject_Z size) (inject_Z size))
                     (_init (mkStatus 57 true) "/ext") 24 24))
      /\ label_x
           (drawn (repaint_effects (fun _ => SvgImage 10 20)
                     (fun size text =>
                        mkExtents (inject_Z size) (inject_Z size))
                     (_init (mkStatus 57 true) "/ext") 24 24))
         = Some tx.
Proof.
  assert (A : (fun _ : string => SvgImage 10 20)
                (_extensionPath (_init (mkStatus 57 true) "/ext")
                 ++ "/charging.svg")%string = SvgImage 10 20) by reflexivity.
  assert (B : isCharging (_status (_init (mkStatus 57 true) "/ext")) = true)
    by reflexivity.
  assert (C : 0 < 20) by lia.
  assert (D : (0 < te_height
                     ((fun size (text : string) =>
                         mkExtents (inject_Z size) (inject_Z size))
                        (Math_round (inject_Z 24 * FONT_SIZE_RATIO))
                        (String_of (percentage
                                      (_status (_init (mkStatus 57 true)
                                                  "/ext"))))))%Q)
    by reflexivity.
  split; [exact A | split; [exact B | split; [exact C |]]].
  destruct (glyph_geometry (fun _ => SvgImage 10 20)
              (fun size text => mkExtents (inject_Z size) (inject_Z size))
              (_init (mkStatus 57 true) "/ext") 24 24 10 20 A B C D)
    as (s & x & y & tx & H1 & H2 & H3 & _).
  exists s, x, y, tx. split; [exact H1 | split; [exact H2 | exact H3]].
Defined.

(** X24.  On a surface at least 4 pixels wide and high the ring lies
    within the surface with the padding of 2 pixels on every side: the
    outer and the inner arc are centred on the surface centre, the inner
    radius is 9/10 of the outer, and both are at least 0. *)
Theorem ring_within_surface (svg_file : string -> SvgResource)
    (textExtents : Z -> string -> TextExtents)
    (this : CircleIndicator) (width height : Z) :
  4 <= Z.min width height ->
  exists outerRadius innerRadius,
    In (arc (inject_Z width / 2) (inject_Z height / 2) outerRadius
          ARC_START_ANGLE (arcEndAngle (_status this)))%Q
      (drawn (repaint_effects svg_file textExtents this width height))
    /\ In (arcNegative (inject_Z width / 2) (inject_Z height / 2) innerRadius
             (arcEndAngle (_status this)) ARC_START_ANGLE)%Q
         (drawn (repaint_effects svg_file textExtents this width height))
    /\ (0 <= innerRadius <= outerRadius
        /\ innerRadius == RING_INNER_RATIO * outerRadius
        /\ RING_OUTER_PADDING <= inject_Z width / 2 - outerRadius
        /\ inject_Z width / 2 + outerRadius
           <= inject_Z width - RING_OUTER_PADDING
        /\ RING_OUTER_PADDING <= inject_Z height / 2 - outerRadius
        /\ inject_Z height / 2 + outerRadius
           <= inject_Z height - RING_OUTER_PADDING)%Q.
Proof.
  intros Hmin.
  assert (Hm : (4 <= inject_Z (Z.min width height))%Q)
    by (change 4%Q with (inject_Z 4); rewrite <- Zle_Qle; exact Hmin).
  assert (Hw : (inject_Z (Z.min width height) <= inject_Z width)%Q)
    by (rewrite <- Zle_Qle; lia).
  assert (Hh : (inject_Z (Z.min width height) <= inject_Z height)%Q)
    by (rewrite <- Zle_Qle; lia).
  destruct this as [[p chg] path [[r g] b] vis par n].
  unfold repaint_effects, _onRepaint, _drawChargingIcon, _loadChargingSvg,
    new_from_file.
  cbn [_status isCharging _extensionPath _color percentage].
  set (m := inject_Z (Z.min width height)) in *. clearbody m.
  set (W := inject_Z width) in *. clearbody W.
  set (H := inject_Z height) in *. clearbody H.
  exists (m / 2 - RING_OUTER_PADDING)%Q,
         ((m / 2 - RING_OUTER_PADDING) * RING_INNER_RATIO)%Q.
  split; [|split].
  - destruct chg;
      [destruct (svg_file (path ++ "/charging.svg")%string) as [| | w h]|];
      cbv [bind draw ret throw try_catch console_error no_effects drawn
           logged fst snd app];
      do 5 right; left; reflexivity.
  - destruct chg;
      [destruct (svg_file (path ++ "/charging.svg")%string) as [| | w h]|];
      cbv [bind draw ret throw try_catch console_error no_effects drawn
           logged fst snd app];
      do 6 right; left; reflexivity.
  - unfold RING_OUTER_PADDING, RING_INNER_RATIO.
    unfold Qdiv. change (/ 2)%Q with (1 # 2)%Q.
    repeat split; lra.
Qed.

Lemma ring_within_surface_witness :
  4 <= Z.min 24 24
  /\ exists outerRadius innerRadius,
      In (arc (inject_Z 24 / 2) (inject_Z 24 / 2) outerRadius
            ARC_START_ANGLE
            (arcEndAngle (_status (_init (mkStatus 57 false) "/ext"))))%Q
        (drawn (repaint_effects (fun _ => SvgUnreadable)
                  (fun size text => mkExtents (inject_Z size) (inject_Z size))
                  (_init (mkStatus 57 false) "/ext") 24 24))
      /\ (0 <= innerRadius <= outerRadius)%Q.
Proof.
  assert (A : 4 <= Z.min 24 24) by (vm_compute; discriminate).
  split; [exact A |].
  destruct (ring_within_surface (fun _ => SvgUnreadable)
              (fun size text => mkExtents (inject_Z size) (inject_Z size))
              (_init (mkStatus 57 false) "/ext") 24 24 A)
    as (ro & ri & H1 & _ & H3 & _).
  exists ro, ri. split; [exact H1 | exact H3].
Defined.

(** ** The arc outside the valid range *)

(** X25.  The sweep of the arc stays between 0 and a full turn exactly for
    the percentages of [0,100]: it is negative exactly for a negative
    percentage, such as the -1 the indicator is created with, and exceeds
    360 degrees exactly above 100. *)
Theorem sweep_range (status : BatteryStatus) :
  ((sweep status < 0)%Q <-> percentage status < 0)
  /\ ((degrees 360 < sweep status)%Q <-> 100 < percentage status)
  /\ ((0 <= sweep status <= degrees 360)%Q <-> 0 <= percentage status <= 100).
Proof.
  pose proof Math_PI_pos as Hpi.
  assert (E : (sweep status
               == inject_Z (percentage status) * (Math_PI * (1 # 50)))%Q)
    by (rewrite sweep_linear; unfold Qdiv; reflexivity).
  assert (F : (degrees 360 == 100 * (Math_PI * (1 # 50)))%Q)
    by (unfold degrees; field).
  rewrite E, F.
  rewrite (Zlt_Qlt (percentage status) 0), (Zlt_Qlt 100 (percentage status)),
    (Zle_Qle 0 (percentage status)), (Zle_Qle (percentage status) 100).
  change (inject_Z 0) with 0%Q. change (inject_Z 100) with 100%Q.
  set (x := inject_Z (percentage status)). clearbody x.
  set (k := (Math_PI * (1 # 50))%Q).
  assert (Hk : (0 < k)%Q) by (unfold k; lra).
  clearbody k.
  split; [|split].
  - split; intros Hx; nra.
  - split; intros Hx; nra.
  - split; intros [Hx1 Hx2]; split; nra.
Qed.

(** ** The charging threshold below the discharging threshold *)

(** X26.  While the battery charges, a stored charging threshold that does
    not exceed the stored discharging threshold has no effect: any two such
    values give the same visibility. *)
Theorem low_charging_threshold_ignored (shell1 shell2 : Shell)
    (this1 this2 : Extension) :
  _device this1 = _device this2 ->
  (_indicator this1 = None <-> _indicator this2 = None) ->
  isCharging (reading (_device this1)) = true ->
  get_int (_settings this1) DISCHARGING_KEY
  = get_int (_settings this2) DISCHARGING_KEY ->
  get_int (_settings this1) CHARGING_KEY
  <= get_int (_settings this1) DISCHARGING_KEY ->
  get_int (_settings this2) CHARGING_KEY
  <= get_int (_settings this2) DISCHARGING_KEY ->
  shown (after_update shell1 this1) = shown (after_update shell2 this2).
Proof.
  intros Hd Hi Hchg Hdis Hc1 Hc2.
  rewrite !shown_after_update, <- Hd.
  unfold shouldShow. rewrite Hchg.
  unfold _getValidatedThreshold, MIN_BATTERY_PERCENT, MAX_BATTERY_PERCENT.
  cbn [fst]. rewrite <- Hdis in *.
  set (p := percentage (reading (_device this1))). clearbody p.
  set (c1 := get_int (_settings this1) CHARGING_KEY) in *.
  set (c2 := get_int (_settings this2) CHARGING_KEY) in *.
  set (d := get_int (_settings this1) DISCHARGING_KEY) in *.
  clearbody c1 c2 d.
  assert (E : forall c, c <= d ->
              (p <? Z.max 0 (Z.min 100 c)) || (p <? Z.max 0 (Z.min 100 d))
              = (p <? Z.max 0 (Z.min 100 d))).
  { intros c Hc.
    destruct (p <? Z.max 0 (Z.min 100 d)) eqn:Hpd;
      [apply orb_true_r|].
    rewrite orb_false_r. apply Z.ltb_ge. apply Z.ltb_ge in Hpd. lia. }
  rewrite (E c1 Hc1), (E c2 Hc2).
  destruct (_indicator this1) as [i1|], (_indicator this2) as [i2|];
    try reflexivity.
  - destruct Hi as [_ Hi]. discriminate (Hi eq_refl).
  - destruct Hi as [Hi _]. discriminate (Hi eq_refl).
Qed.

Lemma low_charging_threshold_ignored_witness :
  _device (enabled 85 CHARGING 10 90) = _device (enabled 85 CHARGING 70 90)
  /\ isCharging (reading (_device (enabled 85 CHARGING 10 90))) = true
  /\ shown (after_update None (enabled 85 CHARGING 10 90))
     = shown (after_update None (enabled 85 CHARGING 70 90)).
Proof.
  assert (A : _device (enabled 85 CHARGING 10 90)
              = _device (enabled 85 CHARGING 70 90)) by reflexivity.
  assert (B : isCharging (reading (_device (enabled 85 CHARGING 10 90)))
              = true) by reflexivity.
  split; [exact A | split; [exact B |]].
  apply (low_charging_threshold_ignored None None _ _ A).
  - split; discriminate.
  - exact B.
  - reflexivity.
  - vm_compute. discriminate.
  - vm_compute. discriminate.
Defined.
